(** * Conscious Spending Planner: tax engine, household calculator and
      scenario store

    A shallow embedding of [js/utils/tax-calculator.js], of the
    [HouseholdCalculator] class and of the delete and current-scenario
    operations of [ScenarioManager], together with the properties the
    specification states about them and further properties of the code.

    JavaScript numbers are modelled by [num]: exact rationals extended with
    the IEEE special values [NaN], [+Infinity] and [-Infinity].  Arithmetic
    on finite values is exact: the rounding of binary64 operations, overflow
    and the sign of zero are outside the model.  Objects used as maps
    (bracket tables, the scenario collection) are finite maps over their own
    properties; exceptions are an explicit result type. *)

From Stdlib Require Import QArith Qcanon Qround Lqa.
From stdpp Require Import base option list numbers strings gmap.

Local Open Scope Z_scope.
Local Open Scope string_scope.

(** ** Results of calls that may throw *)

Inductive error : Type :=
  | TypeError (msg : string)
  | Error (msg : string).

Inductive js (A : Type) : Type :=
  | Ok (a : A)
  | Throw (e : error).
Arguments Ok {A} a.
Arguments Throw {A} e.

Global Instance error_eq_dec : EqDecision error.
Proof. solve_decision. Defined.

Global Instance js_eq_dec {A : Type} `{EqDecision A} : EqDecision (js A).
Proof. solve_decision. Defined.

Global Instance js_ret : MRet js := fun _ a => Ok a.
Global Instance js_bind : MBind js := fun _ _ k m =>
  match m with
  | Ok a => k a
  | Throw e => Throw e
  end.

(** Reading the property [what] of [undefined] raises a TypeError. *)
Definition prop_of {A : Type} (what : string) (o : option A) : js A :=
  match o with
  | Some a => Ok a
  | None => Throw (TypeError ("Cannot read properties of undefined (" ++ what ++ ")"))
  end.

(** A property key: [obj[undefined]] looks the key "undefined" up. *)
Definition key_of (k : option string) : string :=
  match k with
  | Some s => s
  | None => "undefined"
  end.

(** ** Numbers *)

Module Num.

Inductive num : Type :=
  | NaN
  | Inf (negative : bool)
  | Fin (q : Qc).

Definition PInf : num := Inf false.
Definition NInf : num := Inf true.

(** A decimal literal of the source. *)
Definition lit (q : Q) : num := Fin (Q2Qc q).
Definition of_Z (n : Z) : num := Fin (Q2Qc (inject_Z n)).

Definition Qc_ltb (x y : Qc) : bool := bool_decide (x < y)%Qc.
Definition Qc_eqb (x y : Qc) : bool := bool_decide (x = y).

Definition neg (a : num) : num :=
  match a with
  | NaN => NaN
  | Inf s => Inf (negb s)
  | Fin x => Fin (- x)%Qc
  end.

Definition add (a b : num) : num :=
  match a, b with
  | NaN, _ | _, NaN => NaN
  | Inf s1, Inf s2 => if Bool.eqb s1 s2 then Inf s1 else NaN
  | Inf s, Fin _ | Fin _, Inf s => Inf s
  | Fin x, Fin y => Fin (x + y)%Qc
  end.

Definition sub (a b : num) : num := add a (neg b).

(** The sign of [Inf s] scaled by the finite [x]; zero counts as positive. *)
Definition scaled_sign (s : bool) (x : Qc) : bool :=
  if Qc_ltb x 0 then negb s else s.

Definition mul (a b : num) : num :=
  match a, b with
  | NaN, _ | _, NaN => NaN
  | Inf s1, Inf s2 => Inf (xorb s1 s2)
  | Inf s, Fin x | Fin x, Inf s =>
      if Qc_eqb x 0 then NaN else Inf (scaled_sign s x)
  | Fin x, Fin y => Fin (x * y)%Qc
  end.

Definition div (a b : num) : num :=
  match a, b with
  | NaN, _ | _, NaN => NaN
  | Inf _, Inf _ => NaN
  | Inf s, Fin y => Inf (scaled_sign s y)
  | Fin _, Inf _ => Fin 0%Qc
  | Fin x, Fin y =>
      if Qc_eqb y 0
      then (if Qc_eqb x 0 then NaN else Inf (Qc_ltb x 0))
      else Fin (x / y)%Qc
  end.

(** [a < b]; every comparison with [NaN] is false. *)
Definition ltb (a b : num) : bool :=
  match a, b with
  | NaN, _ | _, NaN => false
  | Inf s1, Inf s2 => s1 && negb s2
  | Inf s, Fin _ => s
  | Fin _, Inf s => negb s
  | Fin x, Fin y => Qc_ltb x y
  end.

(** [a > b] *)
Definition gtb (a b : num) : bool := ltb b a.

(** [Math.min] and [Math.max] *)
Definition min (a b : num) : num :=
  match a, b with
  | NaN, _ | _, NaN => NaN
  | _, _ => if ltb b a then b else a
  end.

Definition max (a b : num) : num :=
  match a, b with
  | NaN, _ | _, NaN => NaN
  | _, _ => if ltb a b then b else a
  end.

(** [Math.floor] *)
Definition floor (a : num) : num :=
  match a with
  | Fin x => of_Z (Qfloor x)
  | _ => a
  end.

(** [Math.round]: the nearest integer, halves towards [+Infinity]. *)
Definition round (a : num) : num :=
  match a with
  | Fin x => of_Z (Qfloor (x + Q2Qc 0.5)%Qc)
  | _ => a
  end.

(** Truthiness of a number: [0] and [NaN] are falsy. *)
Definition truthy (a : num) : bool :=
  match a with
  | NaN => false
  | Inf _ => true
  | Fin x => negb (Qc_eqb x 0)
  end.

(** [a || b] on numbers *)
Definition or_else (a b : num) : num := if truthy a then a else b.

(** Strict equality [===]: [NaN] differs from itself. *)
Definition eqb (a b : num) : bool :=
  match a, b with
  | Fin x, Fin y => Qc_eqb x y
  | Inf s1, Inf s2 => Bool.eqb s1 s2
  | _, _ => false
  end.

(** [undefined] in arithmetic is [NaN]. *)
Definition of_undefined (o : option num) : num := default NaN o.

Global Instance num_eq_dec : EqDecision num.
Proof. solve_decision. Defined.

End Num.

Import Num.

Declare Scope num_scope.
Delimit Scope num_scope with num.
Bind Scope num_scope with num.
Infix "+" := Num.add : num_scope.
Infix "-" := Num.sub : num_scope.
Infix "*" := Num.mul : num_scope.
Infix "/" := Num.div : num_scope.
Notation "0" := (Num.lit 0%Q) : num_scope.

(** [Math.round(x * 100) / 100] *)
Definition round_cents (x : num) : num :=
  (Num.round (x * lit 100) / lit 100)%num.

(** ** Tax calculator ([js/utils/tax-calculator.js]) *)

Record Bracket : Type := mkBracket {
  b_min : num;
  b_max : num;
  b_rate : num
}.

(** The rule of a state, tagged by its [type] field.  Every entry of the
    table carries one of the three tags, so the [default] branch of the
    switches over [type] is not reached from the table. *)
Inductive StateTaxRule : Type :=
  | RuleNone
  | RuleFlat (rate : num)
  | RuleProgressive (brackets : list Bracket).

Record FicaRates : Type := mkFicaRates {
  fr_socialSecurity : num;
  fr_medicare : num;
  fr_additionalMedicare : num;
  fr_socialSecurityWageBase : num
}.

(** The fields the constructor sets on [this]. *)
Record TaxCalculator : Type := mkTaxCalculator {
  federalBrackets : gmap string (list Bracket);
  standardDeductions : gmap string num;
  ficaRates : FicaRates;
  stateTaxRates : gmap string StateTaxRule
}.

Definition bracket (lo : Q) (hi : num) (rate : Q) : Bracket :=
  mkBracket (lit lo) hi (lit rate).

Definition upto (hi : Q) : num := lit hi.

Definition single_brackets : list Bracket :=
  [ bracket 0 (upto 11550) 0.10;
    bracket 11550 (upto 46650) 0.12;
    bracket 46650 (upto 100525) 0.22;
    bracket 100525 (upto 191950) 0.24;
    bracket 191950 (upto 243725) 0.32;
    bracket 243725 (upto 609350) 0.35;
    bracket 609350 PInf 0.37 ].

Definition marriedFilingJointly_brackets : list Bracket :=
  [ bracket 0 (upto 23100) 0.10;
    bracket 23100 (upto 93300) 0.12;
    bracket 93300 (upto 201050) 0.22;
    bracket 201050 (upto 383900) 0.24;
    bracket 383900 (upto 487450) 0.32;
    bracket 487450 (upto 731200) 0.35;
    bracket 731200 PInf 0.37 ].

Definition marriedFilingSeparately_brackets : list Bracket :=
  [ bracket 0 (upto 11550) 0.10;
    bracket 11550 (upto 46650) 0.12;
    bracket 46650 (upto 100525) 0.22;
    bracket 100525 (upto 191950) 0.24;
    bracket 191950 (upto 243725) 0.32;
    bracket 243725 (upto 365600) 0.35;
    bracket 365600 PInf 0.37 ].

Definition headOfHousehold_brackets : list Bracket :=
  [ bracket 0 (upto 16550) 0.10;
    bracket 16550 (upto 63100) 0.12;
    bracket 63100 (upto 100500) 0.22;
    bracket 100500 (upto 191950) 0.24;
    bracket 191950 (upto 243700) 0.32;
    bracket 243700 (upto 609350) 0.35;
    bracket 609350 PInf 0.37 ].

Definition CA_brackets : list Bracket :=
  [ bracket 0 (upto 10099) 0.01;
    bracket 10099 (upto 23942) 0.02;
    bracket 23942 (upto 37788) 0.04;
    bracket 37788 (upto 52455) 0.06;
    bracket 52455 (upto 66295) 0.08;
    bracket 66295 (upto 338639) 0.093;
    bracket 338639 (upto 406364) 0.103;
    bracket 406364 (upto 677278) 0.113;
    bracket 677278 PInf 0.123 ].

Definition NY_brackets : list Bracket :=
  [ bracket 0 (upto 8500) 0.04;
    bracket 8500 (upto 11700) 0.045;
    bracket 11700 (upto 13900) 0.0525;
    bracket 13900 (upto 80650) 0.0585;
    bracket 80650 (upto 215400) 0.0625;
    bracket 215400 (upto 1077550) 0.0685;
    bracket 1077550 (upto 5000000) 0.0965;
    bracket 5000000 (upto 25000000) 0.103;
    bracket 25000000 PInf 0.109 ].

(** [new TaxCalculator()] *)
Definition new_TaxCalculator : TaxCalculator := {|
  federalBrackets := list_to_map
    [ ("single", single_brackets);
      ("marriedFilingJointly", marriedFilingJointly_brackets);
      ("marriedFilingSeparately", marriedFilingSeparately_brackets);
      ("headOfHousehold", headOfHousehold_brackets) ];
  standardDeductions := list_to_map
    [ ("single", lit 15000);
      ("marriedFilingJointly", lit 30000);
      ("marriedFilingSeparately", lit 15000);
      ("headOfHousehold", lit 22500) ];
  ficaRates := {|
    fr_socialSecurity := lit 0.062;
    fr_medicare := lit 0.0145;
    fr_additionalMedicare := lit 0.009;
    fr_socialSecurityWageBase := lit 176100 |};
  stateTaxRates := list_to_map
    [ ("AK", RuleNone); ("FL", RuleNone); ("NV", RuleNone);
      ("NH", RuleNone); ("SD", RuleNone); ("TN", RuleNone);
      ("TX", RuleNone); ("WA", RuleNone); ("WY", RuleNone);
      ("CO", RuleFlat (lit 0.044));
      ("IL", RuleFlat (lit 0.0495));
      ("IN", RuleFlat (lit 0.030));
      ("IA", RuleFlat (lit 0.038));
      ("KY", RuleFlat (lit 0.045));
      ("MI", RuleFlat (lit 0.0425));
      ("NC", RuleFlat (lit 0.045));
      ("PA", RuleFlat (lit 0.0307));
      ("UT", RuleFlat (lit 0.0485));
      ("CA", RuleProgressive CA_brackets);
      ("NY", RuleProgressive NY_brackets) ]
|}.

Section TaxCalculatorMethods.

Variable this : TaxCalculator.

(** [calculateFederalTax(taxableIncome, filingStatus = 'single')] *)
Definition calculateFederalTax (taxableIncome : num)
    (filingStatus : option string) : js num :=
  let filingStatus := default "single" filingStatus in
  match federalBrackets this !! filingStatus with
  | None => Throw (Error ("Invalid filing status: " ++ filingStatus))
  | Some brackets =>
      let tax :=
        foldl (fun tax bracket =>
                 if Num.gtb taxableIncome (b_min bracket)
                 then
                   let taxableInBracket :=
                     (Num.min taxableIncome (b_max bracket) - b_min bracket)%num in
                   (tax + taxableInBracket * b_rate bracket)%num
                 else tax)
              0%num brackets in
      Ok (round_cents tax)
  end.

(** [calculateStateTax(taxableIncome, state)] *)
Definition calculateStateTax (taxableIncome : num)
    (state : option string) : num :=
  match stateTaxRates this !! key_of state with
  | None => (taxableIncome * lit 0.05)%num
  | Some RuleNone => 0%num
  | Some (RuleFlat rate) => (taxableIncome * rate)%num
  | Some (RuleProgressive brackets) =>
      let tax :=
        foldl (fun tax bracket =>
                 if Num.gtb taxableIncome (b_min bracket)
                 then
                   let taxableInBracket :=
                     (Num.min taxableIncome (b_max bracket) - b_min bracket)%num in
                   (tax + taxableInBracket * b_rate bracket)%num
                 else tax)
              0%num brackets in
      round_cents tax
  end.

Record Fica : Type := mkFica {
  socialSecurity : num;
  medicare : num;
  additionalMedicare : num;
  total : num
}.

(** [calculateFICA(grossWages)] *)
Definition calculateFICA (grossWages : num) : Fica :=
  let socialSecurityWages :=
    Num.min grossWages (fr_socialSecurityWageBase (ficaRates this)) in
  let socialSecurityTax :=
    (socialSecurityWages * fr_socialSecurity (ficaRates this))%num in
  let medicareTax := (grossWages * fr_medicare (ficaRates this))%num in
  let additionalMedicareTax :=
    if Num.gtb grossWages (lit 200000)
    then ((grossWages - lit 200000) * fr_additionalMedicare (ficaRates this))%num
    else 0%num in
  {| socialSecurity := round_cents socialSecurityTax;
     medicare := round_cents medicareTax;
     additionalMedicare := round_cents additionalMedicareTax;
     total := round_cents (socialSecurityTax + medicareTax + additionalMedicareTax) |}.

(** [getStandardDeduction(filingStatus)]:
    [this.standardDeductions[filingStatus] || this.standardDeductions.single] *)
Definition getStandardDeduction (filingStatus : option string) : num :=
  match standardDeductions this !! key_of filingStatus with
  | Some d =>
      if Num.truthy d then d
      else Num.of_undefined (standardDeductions this !! "single")
  | None => Num.of_undefined (standardDeductions this !! "single")
  end.

(** [calculateEffectiveRate(totalTax, grossIncome)] *)
Definition calculateEffectiveRate (totalTax grossIncome : num) : num :=
  if Num.gtb grossIncome 0%num
  then (totalTax / grossIncome * lit 100)%num
  else 0%num.

(** [calculateMarginalRate(taxableIncome, filingStatus, state)]: iterating
    over [undefined] raises a TypeError. *)
Definition calculateMarginalRate (taxableIncome : num)
    (filingStatus state : option string) : js num :=
  match federalBrackets this !! key_of filingStatus with
  | None => Throw (TypeError "federalBrackets is not iterable")
  | Some federalBrackets =>
      let federalMarginalRate :=
        foldl (fun rate bracket =>
                 if Num.gtb taxableIncome (b_min bracket)
                 then b_rate bracket else rate)
              0%num federalBrackets in
      let stateMarginalRate :=
        match stateTaxRates this !! key_of state with
        | Some (RuleFlat rate) => rate
        | Some (RuleProgressive brackets) =>
            foldl (fun rate bracket =>
                     if Num.gtb taxableIncome (b_min bracket)
                     then b_rate bracket else rate)
                  0%num brackets
        | Some RuleNone | None => 0%num
        end in
      Ok ((federalMarginalRate + stateMarginalRate) * lit 100)%num
  end.

Record TaxResult : Type := mkTaxResult {
  grossIncome : num;
  preTexDeductions : num;
  standardDeduction : num;
  taxableIncome : num;
  federalTax : num;
  stateTax : num;
  fica : Fica;
  totalTax : num;
  netIncome : num;
  effectiveRate : num;
  marginalRate : num
}.

(** [calculateAllTaxes(grossIncome, preTexDeductions, filingStatus, state)] *)
Definition calculateAllTaxes (grossIncome preTexDeductions : num)
    (filingStatus state : option string) : js TaxResult :=
  let standardDeduction := getStandardDeduction filingStatus in
  let taxableIncome :=
    Num.max 0%num (grossIncome - preTexDeductions - standardDeduction)%num in
  federalTax ← calculateFederalTax taxableIncome filingStatus;
  let stateTax := calculateStateTax taxableIncome state in
  let fica := calculateFICA (grossIncome - preTexDeductions)%num in
  let totalTax := (federalTax + stateTax + total fica)%num in
  let netIncome := (grossIncome - preTexDeductions - totalTax)%num in
  marginalRate ← calculateMarginalRate taxableIncome filingStatus state;
  Ok {| grossIncome := grossIncome;
        preTexDeductions := preTexDeductions;
        standardDeduction := standardDeduction;
        taxableIncome := taxableIncome;
        federalTax := federalTax;
        stateTax := stateTax;
        fica := fica;
        totalTax := totalTax;
        netIncome := netIncome;
        effectiveRate := calculateEffectiveRate totalTax grossIncome;
        marginalRate := marginalRate |}.

End TaxCalculatorMethods.

(** ** Scenario data *)

(** A node of the nested expense mapping.  An object that exposes an
    [amount] field is an item; any other object is a category whose own
    properties are visited in order; everything else ([null], numbers,
    strings) is a primitive.  The fields of an item are primitives. *)
#[warnings="-register-all"] Inductive ExpenseNode : Type :=
  | Primitive
  | Item (amount : num) (assignedTo : option string)
  | Category (children : list (string * ExpenseNode)).

Record RamitCategories : Type := mkRamitCategories {
  fixedCosts : option ExpenseNode;
  investments : option ExpenseNode;
  savings : option ExpenseNode;
  guiltFreeSpending : option ExpenseNode
}.

Record Expenses : Type := mkExpenses {
  ramitCategories : option RamitCategories
}.

Record Person : Type := mkPerson {
  name : option string;
  salary : option num;
  bonus : option num;
  otherIncome : option num;
  payFrequency : option string;
  person_preTexDeductions : option (list (string * num))
}.

Record Income : Type := mkIncome {
  person1 : option Person;
  person2 : option Person
}.

Record Location : Type := mkLocation {
  state : option string;
  locality : option string
}.

Record Household : Type := mkHousehold {
  location : option Location;
  filingStatus : option string;
  members : list string
}.

Record Metadata : Type := mkMetadata {
  md_name : string;
  md_description : string;
  md_created : string;
  md_lastModified : string
}.

Record Scenario : Type := mkScenario {
  metadata : option Metadata;
  household : option Household;
  income : option Income;
  expenses : option Expenses
}.

(** ** Household calculator ([HouseholdCalculator]) *)

(** The [fica] field of a person calculation: the empty calculation only
    carries [total]. *)
Record PersonFica : Type := mkPersonFica {
  pf_socialSecurity : option num;
  pf_medicare : option num;
  pf_additionalMedicare : option num;
  pf_total : num
}.

Record PersonCalc : Type := mkPersonCalc {
  pc_name : string;
  pc_gross : num;
  pc_preTexDeductions : num;
  pc_federalTax : num;
  pc_stateTax : num;
  pc_fica : PersonFica;
  pc_totalTax : num;
  pc_netAnnual : num;
  pc_monthlyNet : num;
  pc_effectiveRate : num;
  pc_marginalRate : num;
  pc_biweeklyNet : num
}.

Record HouseholdTotals : Type := mkHouseholdTotals {
  hh_grossIncome : num;
  hh_netIncome : num;
  hh_monthlyNetIncome : num;
  hh_totalTaxes : num;
  hh_effectiveRate : num
}.

Record ExpenseBreakdown : Type := mkExpenseBreakdown {
  eb_fixedCosts : num;
  eb_investments : num;
  eb_savings : num;
  eb_guiltFreeSpending : num
}.

Record HouseholdExpenses : Type := mkHouseholdExpenses {
  he_breakdown : ExpenseBreakdown;
  he_total : num;
  he_monthly : num;
  he_annual : num
}.

Record CategoryBreakdown : Type := mkCategoryBreakdown {
  cb_amount : num;
  cb_percentage : num;
  cb_target_min : num;
  cb_target_max : num
}.

Record RamitBreakdown : Type := mkRamitBreakdown {
  rb_fixedCosts : CategoryBreakdown;
  rb_investments : CategoryBreakdown;
  rb_savings : CategoryBreakdown;
  rb_guiltFreeSpending : CategoryBreakdown
}.

Record EmergencyFund : Type := mkEmergencyFund {
  ef_recommended : num;
  ef_current : num;
  ef_ratio : num;
  ef_monthsCovered : num
}.

Record SummaryMetrics : Type := mkSummaryMetrics {
  sm_monthlyNetIncome : num;
  sm_monthlyExpenses : num;
  sm_monthlySurplus : num;
  sm_annualSurplus : num;
  sm_savingsRate : num;
  sm_monthsOfExpenses : num;
  sm_emergencyFundRatio : EmergencyFund;
  sm_debtToIncomeRatio : num
}.

Record ScenarioResult : Type := mkScenarioResult {
  res_person1 : PersonCalc;
  res_person2 : PersonCalc;
  res_household : HouseholdTotals;
  res_expenses : HouseholdExpenses;
  res_ramitBreakdown : RamitBreakdown;
  res_summary : SummaryMetrics
}.

(** Truthiness of a string or [null]/[undefined]: the empty string is falsy. *)
Definition truthy_string (s : option string) : bool :=
  match s with
  | Some s => negb (String.eqb s "")
  | None => false
  end.

(** [x || 0] for a numeric field that may be absent *)
Definition or_zero (x : option num) : num :=
  match x with
  | Some n => Num.or_else n 0%num
  | None => 0%num
  end.

(** [getEmptyPersonCalculation()] *)
Definition getEmptyPersonCalculation : PersonCalc := {|
  pc_name := "";
  pc_gross := 0%num;
  pc_preTexDeductions := 0%num;
  pc_federalTax := 0%num;
  pc_stateTax := 0%num;
  pc_fica := {| pf_socialSecurity := None; pf_medicare := None;
                pf_additionalMedicare := None; pf_total := 0%num |};
  pc_totalTax := 0%num;
  pc_netAnnual := 0%num;
  pc_monthlyNet := 0%num;
  pc_effectiveRate := 0%num;
  pc_marginalRate := 0%num;
  pc_biweeklyNet := 0%num
|}.

(** [calculateBiweeklyPay(annualNet, payFrequency)]: the [switch] compares
    with [===], case by case. *)
Definition calculateBiweeklyPay (annualNet : num)
    (payFrequency : option string) : num :=
  if bool_decide (payFrequency = Some "weekly") then (annualNet / lit 52)%num
  else if bool_decide (payFrequency = Some "biweekly") then (annualNet / lit 26)%num
  else if bool_decide (payFrequency = Some "semimonthly") then (annualNet / lit 24)%num
  else if bool_decide (payFrequency = Some "monthly") then (annualNet / lit 12)%num
  else (annualNet / lit 26)%num.

(** The inner [processItem] of [calculateCategoryTotal]; [total] is the
    accumulator the closure updates. *)
Definition processItem (person : option string) (amount : num)
    (assignedTo : option string) (total : num) : num :=
  if Num.truthy amount then
    if negb (truthy_string person) then (total + amount)%num
    else if bool_decide (assignedTo = person) then (total + amount)%num
    else if bool_decide (assignedTo = Some "shared") && truthy_string person
         then (total + amount / lit 2)%num
    else total
  else total.

(** The inner [traverseCategory] of [calculateCategoryTotal]. *)
Fixpoint traverseCategory (person : option string) (cat : ExpenseNode)
    (total : num) {struct cat} : num :=
  match cat with
  | Category children =>
      (fix each (props : list (string * ExpenseNode)) (total : num) : num :=
         match props with
         | [] => total
         | (_, child) :: rest =>
             each rest
               match child with
               | Primitive => total
               | Item amount assignedTo =>
                   processItem person amount assignedTo total
               | Category _ => traverseCategory person child total
               end
         end) children total
  | Primitive | Item _ _ => total
  end.

(** [calculateCategoryTotal(category, person = null)]; iterating over an
    absent category visits nothing. *)
Definition calculateCategoryTotal (category : option ExpenseNode)
    (person : option string) : num :=
  match category with
  | Some cat => traverseCategory person cat 0%num
  | None => 0%num
  end.

Section HouseholdCalculatorMethods.

(** [this.taxCalc] *)
Variable taxCalc : TaxCalculator.

(** [calculatePersonIncome(person, scenario)] *)
Definition calculatePersonIncome (person : option Person)
    (scenario : Scenario) : js PersonCalc :=
  match person with
  | None => Ok getEmptyPersonCalculation
  | Some person =>
      let grossIncome :=
        (or_zero (salary person) + or_zero (bonus person)
         + or_zero (otherIncome person))%num in
      let preTexDeductions :=
        match person_preTexDeductions person with
        | Some deductions =>
            foldl (fun sum amount => (sum + Num.or_else amount 0)%num)
                  0%num (deductions.*2)
        | None => 0%num
        end in
      hh ← prop_of "filingStatus" (household scenario);
      loc ← prop_of "state" (location hh);
      taxResult ← calculateAllTaxes taxCalc grossIncome preTexDeductions
                    (filingStatus hh) (state loc);
      Ok {| pc_name := if truthy_string (name person)
                       then default "" (name person) else "Unknown";
            pc_gross := grossIncome;
            pc_preTexDeductions := preTexDeductions;
            pc_federalTax := federalTax taxResult;
            pc_stateTax := stateTax taxResult;
            pc_fica :=
              {| pf_socialSecurity := Some (socialSecurity (fica taxResult));
                 pf_medicare := Some (medicare (fica taxResult));
                 pf_additionalMedicare :=
                   Some (additionalMedicare (fica taxResult));
                 pf_total := total (fica taxResult) |};
            pc_totalTax := totalTax taxResult;
            pc_netAnnual := netIncome taxResult;
            pc_monthlyNet := (netIncome taxResult / lit 12)%num;
            pc_effectiveRate := effectiveRate taxResult;
            pc_marginalRate := marginalRate taxResult;
            pc_biweeklyNet :=
              calculateBiweeklyPay (netIncome taxResult) (payFrequency person) |}
  end.

(** [calculateHouseholdExpenses(expenses)] *)
Definition calculateHouseholdExpenses (expenses : option Expenses)
    : js HouseholdExpenses :=
  expenses ← prop_of "ramitCategories" expenses;
  categories ← prop_of "fixedCosts" (ramitCategories expenses);
  let breakdown := {|
    eb_fixedCosts := calculateCategoryTotal (fixedCosts categories) None;
    eb_investments := calculateCategoryTotal (investments categories) None;
    eb_savings := calculateCategoryTotal (savings categories) None;
    eb_guiltFreeSpending :=
      calculateCategoryTotal (guiltFreeSpending categories) None |} in
  let total :=
    (0 + eb_fixedCosts breakdown + eb_investments breakdown
     + eb_savings breakdown + eb_guiltFreeSpending breakdown)%num in
  Ok {| he_breakdown := breakdown;
        he_total := total;
        he_monthly := total;
        he_annual := (total * lit 12)%num |}.

(** One entry of [calculateRamitBreakdown] *)
Definition categoryBreakdown (amount monthlyNet : num) (lo hi : Q)
    : CategoryBreakdown :=
  {| cb_amount := amount;
     cb_percentage :=
       if Num.gtb monthlyNet 0%num
       then (amount / monthlyNet * lit 100)%num else 0%num;
     cb_target_min := lit lo;
     cb_target_max := lit hi |}.

(** [calculateRamitBreakdown(expenses, netIncome)] *)
Definition calculateRamitBreakdown (expenses : option Expenses)
    (netIncome : num) : js RamitBreakdown :=
  expenses ← prop_of "ramitCategories" expenses;
  let monthlyNet := (netIncome / lit 12)%num in
  categories ← prop_of "fixedCosts" (ramitCategories expenses);
  let fixedCosts := calculateCategoryTotal (fixedCosts categories) None in
  let investments := calculateCategoryTotal (investments categories) None in
  let savings := calculateCategoryTotal (savings categories) None in
  let guiltFree := calculateCategoryTotal (guiltFreeSpending categories) None in
  Ok {| rb_fixedCosts := categoryBreakdown fixedCosts monthlyNet 50 60;
        rb_investments := categoryBreakdown investments monthlyNet 10 10;
        rb_savings := categoryBreakdown savings monthlyNet 5 10;
        rb_guiltFreeSpending := categoryBreakdown guiltFree monthlyNet 20 35 |}.

(** [calculateEmergencyFundRatio(expenses)] *)
Definition calculateEmergencyFundRatio (expenses : HouseholdExpenses)
    : EmergencyFund :=
  let monthlyExpenses := he_total expenses in
  let recommendedEmergencyFund := (monthlyExpenses * lit 6)%num in
  {| ef_recommended := recommendedEmergencyFund;
     ef_current := lit 15000;
     ef_ratio := (lit 15000 / recommendedEmergencyFund)%num;
     ef_monthsCovered := (lit 15000 / monthlyExpenses)%num |}.

(** [calculateSummaryMetrics(person1Calc, person2Calc, householdExpenses)] *)
Definition calculateSummaryMetrics (person1Calc person2Calc : PersonCalc)
    (householdExpenses : HouseholdExpenses) : SummaryMetrics :=
  let totalNetIncome :=
    (pc_netAnnual person1Calc + pc_netAnnual person2Calc)%num in
  let monthlyNetIncome := (totalNetIncome / lit 12)%num in
  let monthlyExpenses := he_total householdExpenses in
  let monthlySurplus := (monthlyNetIncome - monthlyExpenses)%num in
  let annualSurplus := (monthlySurplus * lit 12)%num in
  {| sm_monthlyNetIncome := monthlyNetIncome;
     sm_monthlyExpenses := monthlyExpenses;
     sm_monthlySurplus := monthlySurplus;
     sm_annualSurplus := annualSurplus;
     sm_savingsRate :=
       if Num.gtb monthlyNetIncome 0%num
       then (monthlySurplus / monthlyNetIncome * lit 100)%num else 0%num;
     sm_monthsOfExpenses :=
       if Num.gtb monthlySurplus 0%num
       then Num.floor (monthlyNetIncome / monthlyExpenses)%num else 0%num;
     sm_emergencyFundRatio := calculateEmergencyFundRatio householdExpenses;
     sm_debtToIncomeRatio := 0%num |}.

(** [calculateScenario(scenario)]; [None] is [null]. *)
Definition calculateScenario (scenario : option Scenario)
    : js (option ScenarioResult) :=
  match scenario with
  | None => Ok None
  | Some scenario =>
      inc ← prop_of "person1" (income scenario);
      person1Calc ← calculatePersonIncome (person1 inc) scenario;
      inc ← prop_of "person2" (income scenario);
      person2Calc ← calculatePersonIncome (person2 inc) scenario;
      householdExpenses ← calculateHouseholdExpenses (expenses scenario);
      ramitBreakdown ←
        calculateRamitBreakdown (expenses scenario)
          (pc_netAnnual person1Calc + pc_netAnnual person2Calc)%num;
      Ok (Some {|
        res_person1 := person1Calc;
        res_person2 := person2Calc;
        res_household := {|
          hh_grossIncome := (pc_gross person1Calc + pc_gross person2Calc)%num;
          hh_netIncome :=
            (pc_netAnnual person1Calc + pc_netAnnual person2Calc)%num;
          hh_monthlyNetIncome :=
            ((pc_netAnnual person1Calc + pc_netAnnual person2Calc)
             / lit 12)%num;
          hh_totalTaxes :=
            (pc_totalTax person1Calc + pc_totalTax person2Calc)%num;
          hh_effectiveRate :=
            ((pc_totalTax person1Calc + pc_totalTax person2Calc)
             / (pc_gross person1Calc + pc_gross person2Calc)
             * lit 100)%num |};
        res_expenses := householdExpenses;
        res_ramitBreakdown := ramitBreakdown;
        res_summary :=
          calculateSummaryMetrics person1Calc person2Calc householdExpenses |})
  end.

End HouseholdCalculatorMethods.

(** ** Scenario store ([StorageManager], [ScenarioManager]) *)

(** The persisted collection under the storage key; [setItem_throws] tells
    whether writing to [localStorage] raises (quota, storage disabled). *)
Record StorageManager : Type := mkStorageManager {
  allData : gmap string Scenario;
  setItem_throws : bool
}.

(** [StorageManager.deleteScenario(scenarioName)]: the exception of a
    failed write is caught and reported as [false]. *)
Definition storage_deleteScenario (scenarioName : string)
    (st : StorageManager) : bool * StorageManager :=
  if setItem_throws st then (false, st)
  else (true, {| allData := delete scenarioName (allData st);
                 setItem_throws := setItem_throws st |}).

(** A callback list that was triggered, with the scenario name passed. *)
Inductive Event : Type :=
  | onScenarioChange (scenarioName : string)
  | onScenarioSave (scenarioName : string)
  | onScenarioDelete (scenarioName : string).

Record ScenarioManager : Type := mkScenarioManager {
  storage : StorageManager;
  currentScenario : option string;
  scenarios : gmap string Scenario;
  triggered : list Event
}.

Definition triggerCallbacks (e : Event) (this : ScenarioManager)
    : ScenarioManager :=
  {| storage := storage this;
     currentScenario := currentScenario this;
     scenarios := scenarios this;
     triggered := triggered this ++ [e] |}.

(** [setCurrentScenario(scenarioName)] *)
Definition setCurrentScenario (scenarioName : string)
    (this : ScenarioManager) : bool * ScenarioManager :=
  match scenarios this !! scenarioName with
  | Some _ =>
      (true,
       triggerCallbacks (onScenarioChange scenarioName)
         {| storage := storage this;
            currentScenario := Some scenarioName;
            scenarios := scenarios this;
            triggered := triggered this |})
  | None => (false, this)
  end.

(** [deleteScenario(scenarioName)]: the outcome of the call and the state
    of the manager after it. *)
Definition deleteScenario (scenarioName : string) (this : ScenarioManager)
    : js bool * ScenarioManager :=
  if String.eqb scenarioName "baseline"
  then (Throw (Error "Cannot delete baseline scenario"), this)
  else
    match scenarios this !! scenarioName with
    | None => (Throw (Error "Scenario does not exist"), this)
    | Some _ =>
        let '(deleted, st) := storage_deleteScenario scenarioName (storage this) in
        let this := {| storage := st;
                       currentScenario := currentScenario this;
                       scenarios := delete scenarioName (scenarios this);
                       triggered := triggered this |} in
        if deleted then
          let this :=
            if bool_decide (currentScenario this = Some scenarioName)
            then (setCurrentScenario "baseline" this).2
            else this in
          (Ok true, triggerCallbacks (onScenarioDelete scenarioName) this)
        else (Ok false, this)
    end.

(** [createBaselineScenario()]; [now] is [new Date().toISOString()]. *)
Definition createBaselineScenario (now : string) : Scenario := {|
  metadata := Some {|
    md_name := "Baseline 2025";
    md_description := "Current income and spending patterns";
    md_created := now;
    md_lastModified := now |};
  household := Some {|
    location := Some {| state := Some "CA"; locality := Some "San Francisco" |};
    filingStatus := Some "marriedFilingJointly";
    members := ["person1"; "person2"] |};
  income := Some {|
    person1 := Some {|
      name := Some "Partner 1";
      salary := Some (lit 120000);
      bonus := Some (lit 15000);
      otherIncome := Some (lit 2000);
      payFrequency := Some "biweekly";
      person_preTexDeductions := Some
        [ ("retirement401k", lit 18000);
          ("healthInsurance", lit 3600);
          ("hsa", lit 4300) ] |};
    person2 := Some {|
      name := Some "Partner 2";
      salary := Some (lit 85000);
      bonus := Some (lit 5000);
      otherIncome := Some (lit 0);
      payFrequency := Some "monthly";
      person_preTexDeductions := Some
        [ ("retirement401k", lit 12000);
          ("healthInsurance", lit 0);
          ("hsa", lit 0) ] |} |};
  expenses := Some {|
    ramitCategories := Some {|
      fixedCosts := Some (Category
        [ ("housing", Category
            [ ("rent", Item (lit 3500) (Some "shared"));
              ("utilities", Item (lit 200) (Some "shared"));
              ("insurance", Item (lit 150) (Some "person1")) ]);
          ("transportation", Category
            [ ("carPayment", Item (lit 450) (Some "person2"));
              ("carInsurance", Item (lit 120) (Some "person2"));
              ("gasAndMaintenance", Item (lit 300) (Some "shared")) ]);
          ("essentials", Category
            [ ("groceries", Item (lit 800) (Some "shared"));
              ("cellPhone", Item (lit 120) (Some "shared"));
              ("internet", Item (lit 80) (Some "shared")) ]) ]);
      investments := Some (Category
        [ ("retirement", Item (lit 1000) (Some "shared"));
          ("brokerage", Item (lit 500) (Some "shared")) ]);
      savings := Some (Category
        [ ("emergency", Item (lit 800) (Some "shared"));
          ("vacation", Item (lit 400) (Some "shared"));
          ("houseDownPayment", Item (lit 1000) (Some "shared")) ]);
      guiltFreeSpending := Some (Category
        [ ("dining", Item (lit 800) (Some "shared"));
          ("entertainment", Item (lit 300) (Some "shared"));
          ("hobbies", Item (lit 200) (Some "person1"));
          ("personalShopping", Item (lit 200) (Some "person2"));
          ("subscriptions", Item (lit 150) (Some "shared")) ]) |} |}
|}.

(** ** Auxiliary definitions for the properties *)

(** The body of the bracket loops of [calculateFederalTax] and
    [calculateStateTax]. *)
Definition bracket_step (taxableIncome tax : num) (bracket : Bracket) : num :=
  if Num.gtb taxableIncome (b_min bracket)
  then (tax + (Num.min taxableIncome (b_max bracket) - b_min bracket)
              * b_rate bracket)%num
  else tax.

(** A bracket with finite lower bound, a finite non-negative rate and an
    upper bound that is [Infinity] or finite and not below the lower one. *)
Definition bracket_ok (b : Bracket) : bool :=
  match b_min b, b_rate b, b_max b with
  | Fin lo, Fin r, Fin hi => bool_decide (0 ≤ r)%Qc && bool_decide (lo ≤ hi)%Qc
  | Fin lo, Fin r, Inf false => bool_decide (0 ≤ r)%Qc
  | _, _, _ => false
  end.

Definition rule_ok (r : StateTaxRule) : bool :=
  match r with
  | RuleNone => true
  | RuleFlat (Fin _) => true
  | RuleFlat _ => false
  | RuleProgressive brackets => forallb bracket_ok brackets
  end.

(** Every item of the tree is assigned to "shared". *)
Fixpoint all_shared (node : ExpenseNode) : bool :=
  match node with
  | Primitive => true
  | Item _ assignedTo => bool_decide (assignedTo = Some "shared")
  | Category children =>
      (fix each (props : list (string * ExpenseNode)) : bool :=
         match props with
         | [] => true
         | (_, child) :: rest => all_shared child && each rest
         end) children
  end.

(** Induction over a tree, with the hypothesis for every child of a
    category. *)
Fixpoint ExpenseNode_children_ind (P : ExpenseNode → Prop)
    (HPrimitive : P Primitive)
    (HItem : ∀ amount assignedTo, P (Item amount assignedTo))
    (HCategory : ∀ children,
       Forall (fun prop => P prop.2) children → P (Category children))
    (node : ExpenseNode) {struct node} : P node :=
  match node with
  | Primitive => HPrimitive
  | Item amount assignedTo => HItem amount assignedTo
  | Category children =>
      HCategory children
        ((fix each (props : list (string * ExpenseNode))
            : Forall (fun prop => P prop.2) props :=
            match props with
            | [] => @List.Forall_nil _ _
            | (key, child) :: rest =>
                @List.Forall_cons _ (fun prop => P prop.2) (key, child) rest
                  (ExpenseNode_children_ind P HPrimitive HItem HCategory child)
                  (each rest)
            end) children)
  end.

(** A household whose two members have no income yet. *)
Definition no_income_person (name : string) : Person := {|
  name := Some name;
  salary := Some (lit 0);
  bonus := Some (lit 0);
  otherIncome := Some (lit 0);
  payFrequency := Some "biweekly";
  person_preTexDeductions := Some []
|}.

Definition no_income_scenario : Scenario := {|
  metadata := metadata (createBaselineScenario "2025-01-01T00:00:00.000Z");
  household := household (createBaselineScenario "2025-01-01T00:00:00.000Z");
  income := Some {| person1 := Some (no_income_person "Partner 1");
                    person2 := Some (no_income_person "Partner 2") |};
  expenses := expenses (createBaselineScenario "2025-01-01T00:00:00.000Z")
|}.

(** The baseline scenario without its [income] subtree. *)
Definition scenario_without_income : Scenario := {|
  metadata := metadata (createBaselineScenario "2025-01-01T00:00:00.000Z");
  household := household (createBaselineScenario "2025-01-01T00:00:00.000Z");
  income := None;
  expenses := expenses (createBaselineScenario "2025-01-01T00:00:00.000Z")
|}.

(** The baseline scenario without its [expenses] subtree. *)
Definition scenario_without_expenses : Scenario := {|
  metadata := metadata (createBaselineScenario "2025-01-01T00:00:00.000Z");
  household := household (createBaselineScenario "2025-01-01T00:00:00.000Z");
  income := income (createBaselineScenario "2025-01-01T00:00:00.000Z");
  expenses := None
|}.

(** The baseline scenario without an entry for [person1]. *)
Definition scenario_without_person1 : Scenario := {|
  metadata := metadata (createBaselineScenario "2025-01-01T00:00:00.000Z");
  household := household (createBaselineScenario "2025-01-01T00:00:00.000Z");
  income := Some {|
    person1 := None;
    person2 := Some {|
      name := Some "Partner 2";
      salary := Some (lit 85000);
      bonus := Some (lit 5000);
      otherIncome := Some (lit 0);
      payFrequency := Some "monthly";
      person_preTexDeductions := Some [ ("retirement401k", lit 12000) ] |} |};
  expenses := expenses (createBaselineScenario "2025-01-01T00:00:00.000Z")
|}.

(** The [total] of C4 as the specification states it: the rounded sum of
    the three independently rounded components. *)
Definition fica_total_is_sum_of_rounded (grossWages : num) : Prop :=
  let r := calculateFICA new_TaxCalculator grossWages in
  total r
  = round_cents (socialSecurity r + medicare r + additionalMedicare r)%num.

(** The household figures of a scenario result, if there is one. *)
Definition household_of (res : js (option ScenarioResult))
    : option HouseholdTotals :=
  match res with
  | Ok (Some r) => Some (res_household r)
  | _ => None
  end.

(** ** Auxiliary definitions for further properties *)

(** The brackets follow one another without gap from [lo]: each lower bound
    is the upper bound of the bracket before, and only the last bracket is
    unbounded. *)
Fixpoint contiguous_from (lo : Qc) (brackets : list Bracket) : bool :=
  match brackets with
  | [] => true
  | b :: rest =>
      match b_min b, b_max b with
      | Fin m, Fin hi =>
          bool_decide (m = lo) && bool_decide (lo ≤ hi)%Qc
          && contiguous_from hi rest
      | Fin m, Inf false =>
          bool_decide (m = lo) && match rest with [] => true | _ => false end
      | _, _ => false
      end
  end.

(** Every rate is finite and lies between 0 and [rmax]. *)
Definition rates_within (rmax : Qc) (brackets : list Bracket) : bool :=
  forallb (fun b =>
             match b_rate b with
             | Fin r => bool_decide (0 ≤ r)%Qc && bool_decide (r ≤ rmax)%Qc
             | _ => false
             end) brackets.

(** The rates are finite, non-negative and never decrease along the list;
    [lo] bounds the first one from below. *)
Fixpoint rates_ascending (lo : Qc) (brackets : list Bracket) : bool :=
  match brackets with
  | [] => true
  | b :: rest =>
      match b_min b, b_rate b with
      | Fin _, Fin r => bool_decide (lo ≤ r)%Qc && rates_ascending r rest
      | _, _ => false
      end
  end.

(** A rule whose rates are at most [rmax]: brackets contiguous from 0 for a
    progressive rule. *)
Definition rule_within (rmax : Qc) (r : StateTaxRule) : bool :=
  match r with
  | RuleNone => true
  | RuleFlat (Fin rate) => bool_decide (0 ≤ rate)%Qc && bool_decide (rate ≤ rmax)%Qc
  | RuleFlat _ => false
  | RuleProgressive brackets =>
      forallb bracket_ok brackets && contiguous_from 0 brackets
      && rates_within rmax brackets && rates_ascending 0 brackets
  end.

(** The items of a tree in the order [traverseCategory] meets them: the items
    directly under a category and those of its nested categories. *)
Fixpoint items_of (node : ExpenseNode) : list (num * option string) :=
  match node with
  | Category children =>
      (fix each (props : list (string * ExpenseNode))
         : list (num * option string) :=
         match props with
         | [] => []
         | (_, child) :: rest =>
             (match child with
              | Primitive => []
              | Item amount assignedTo => [(amount, assignedTo)]
              | Category _ => items_of child
              end ++ each rest)%list
         end) children
  | Primitive | Item _ _ => []
  end.

(** The amounts of the items are finite numbers. *)
Definition finite_items (items : list (num * option string)) : bool :=
  forallb (fun item => match item.1 with Fin _ => true | _ => false end) items.

(** The sum of the finite amounts of a list of items. *)
Definition sum_amounts (items : list (num * option string)) : Qc :=
  foldr (fun item acc => match item.1 with Fin a => (a + acc)%Qc | _ => acc end)
        0%Qc items.

(** Every item is assigned to one of the two members or is shared. *)
Definition assigned_within (p1 p2 : string)
    (items : list (num * option string)) : bool :=
  forallb (fun item =>
             bool_decide (item.2 = Some p1) || bool_decide (item.2 = Some p2)
             || bool_decide (item.2 = Some "shared")) items.

(** The items of the four branches of an expense tree. *)
Definition category_items (category : option ExpenseNode)
    : list (num * option string) :=
  match category with
  | Some cat => items_of cat
  | None => []
  end.

Definition all_items (categories : RamitCategories)
    : list (num * option string) :=
  (category_items (fixedCosts categories)
   ++ category_items (investments categories)
   ++ category_items (savings categories)
   ++ category_items (guiltFreeSpending categories))%list.

(** The amount an item adds to the total for a person filter, as a
    rational: the cases of [processItem]. *)
Definition contribution (person : option string) (amount : Qc)
    (assignedTo : option string) : Qc :=
  if Qc_eqb amount 0 then 0%Qc
  else if negb (truthy_string person) then amount
  else if bool_decide (assignedTo = person) then amount
  else if bool_decide (assignedTo = Some "shared") then (amount / Q2Qc 2)%Qc
  else 0%Qc.

Definition contributions (person : option string)
    (items : list (num * option string)) : Qc :=
  foldr (fun item acc =>
           match item.1 with
           | Fin a => (contribution person a item.2 + acc)%Qc
           | _ => acc
           end) 0%Qc items.

(** The items of the expense tree of a scenario. *)
Definition scenario_items (scenario : Scenario) : list (num * option string) :=
  match expenses scenario with
  | Some ex =>
      match ramitCategories ex with
      | Some categories => all_items categories
      | None => []
      end
  | None => []
  end.

(** A numeric field that is absent or holds a finite number. *)
Definition finite_field (x : option num) : bool :=
  match x with
  | None | Some (Fin _) => true
  | Some _ => false
  end.

(** A person whose income figures and deductions are finite numbers. *)
Definition person_finite (person : Person) : bool :=
  finite_field (salary person) && finite_field (bonus person)
  && finite_field (otherIncome person)
  && match person_preTexDeductions person with
     | Some deductions =>
         forallb (fun d => match d.2 with Fin _ => true | _ => false end)
                 deductions
     | None => true
     end.

(** A scenario with its [household], [income] and [expenses] subtrees, a
    location, a filing status of the bracket table, the four-branch
    [ramitCategories] object, and finite figures for the persons it has. *)
Definition scenario_well_formed (taxCalc : TaxCalculator)
    (scenario : Scenario) : bool :=
  match household scenario, income scenario, expenses scenario with
  | Some hh, Some inc, Some ex =>
      match location hh, filingStatus hh, ramitCategories ex with
      | Some _, Some status, Some _ =>
          bool_decide (is_Some (federalBrackets taxCalc !! status))
          && from_option person_finite true (person1 inc)
          && from_option person_finite true (person2 inc)
      | _, _, _ => false
      end
  | _, _, _ => false
  end.

(** A person calculation with finite figures that reconcile:
    net + tax + deductions = gross, and a monthly net of a twelfth. *)
Definition person_calc_reconciled (c : PersonCalc) : Prop :=
  ∃ g p T n : Qc,
    pc_gross c = Fin g ∧ pc_preTexDeductions c = Fin p
    ∧ pc_totalTax c = Fin T ∧ pc_netAnnual c = Fin n
    ∧ (n + T + p)%Qc = g
    ∧ pc_monthlyNet c = Fin (n / Q2Qc 12)%Qc.

(** ** Calculator state ([HouseholdCalculator]) *)

(** [this.calculations]: the empty object the constructor sets, [null], or
    the result of [calculateScenario]. *)
Inductive Calculations : Type :=
  | CalculationsEmpty
  | CalculationsNull
  | CalculationsOf (result : ScenarioResult).

Record HouseholdCalculator : Type := mkHouseholdCalculator {
  hc_taxCalc : TaxCalculator;
  hc_currentScenario : option Scenario;
  hc_calculations : Calculations
}.

(** [new HouseholdCalculator(taxCalculator)] *)
Definition new_HouseholdCalculator (taxCalculator : TaxCalculator)
    : HouseholdCalculator :=
  {| hc_taxCalc := taxCalculator;
     hc_currentScenario := None;
     hc_calculations := CalculationsEmpty |}.

(** [setScenario(scenario)]: the scenario is stored before its calculation
    runs; an exception leaves [this.calculations] as it was. *)
Definition setScenario (scenario : option Scenario) (this : HouseholdCalculator)
    : js (option ScenarioResult) * HouseholdCalculator :=
  let this := {| hc_taxCalc := hc_taxCalc this;
                 hc_currentScenario := scenario;
                 hc_calculations := hc_calculations this |} in
  match calculateScenario (hc_taxCalc this) scenario with
  | Ok result =>
      (Ok result,
       {| hc_taxCalc := hc_taxCalc this;
          hc_currentScenario := hc_currentScenario this;
          hc_calculations :=
            match result with
            | Some r => CalculationsOf r
            | None => CalculationsNull
            end |})
  | Throw e => (Throw e, this)
  end.

(** The value of [this.calculations[person]]: one of the six parts of a
    result, which are its own properties. *)
Inductive ResultEntry : Type :=
  | EntryPerson (c : PersonCalc)
  | EntryHousehold (h : HouseholdTotals)
  | EntryExpenses (e : HouseholdExpenses)
  | EntryRamitBreakdown (rb : RamitBreakdown)
  | EntrySummary (s : SummaryMetrics).

Definition result_entry (r : ScenarioResult) (key : string)
    : option ResultEntry :=
  if String.eqb key "person1" then Some (EntryPerson (res_person1 r))
  else if String.eqb key "person2" then Some (EntryPerson (res_person2 r))
  else if String.eqb key "household" then Some (EntryHousehold (res_household r))
  else if String.eqb key "expenses" then Some (EntryExpenses (res_expenses r))
  else if String.eqb key "ramitBreakdown"
       then Some (EntryRamitBreakdown (res_ramitBreakdown r))
  else if String.eqb key "summary" then Some (EntrySummary (res_summary r))
  else None.

(** [personCalc.monthlyNet]: only a person calculation has the field. *)
Definition entry_monthlyNet (entry : ResultEntry) : option num :=
  match entry with
  | EntryPerson c => Some (pc_monthlyNet c)
  | _ => None
  end.

Record PersonCategory : Type := mkPersonCategory {
  pcat_amount : num;
  pcat_percentage : num
}.

Record PersonRamitBreakdown : Type := mkPersonRamitBreakdown {
  prb_fixedCosts : PersonCategory;
  prb_investments : PersonCategory;
  prb_savings : PersonCategory;
  prb_guiltFreeSpending : PersonCategory
}.

(** One entry of [calculatePersonRamitBreakdown]; an [undefined]
    [monthlyNet] compares as [NaN]. *)
Definition personCategory (amount : num) (monthlyNet : option num)
    : PersonCategory :=
  {| pcat_amount := amount;
     pcat_percentage :=
       if Num.gtb (Num.of_undefined monthlyNet) 0%num
       then (amount / Num.of_undefined monthlyNet * lit 100)%num
       else 0%num |}.

(** [calculatePersonRamitBreakdown(expenses, monthlyNet)] *)
Definition calculatePersonRamitBreakdown (expenses : ExpenseBreakdown)
    (monthlyNet : option num) : PersonRamitBreakdown :=
  {| prb_fixedCosts := personCategory (eb_fixedCosts expenses) monthlyNet;
     prb_investments := personCategory (eb_investments expenses) monthlyNet;
     prb_savings := personCategory (eb_savings expenses) monthlyNet;
     prb_guiltFreeSpending :=
       personCategory (eb_guiltFreeSpending expenses) monthlyNet |}.

Record PersonView : Type := mkPersonView {
  pv_income : ResultEntry;
  pv_expenses : ExpenseBreakdown;
  pv_totalExpenses : num;
  pv_surplus : num;
  pv_ramitBreakdown : PersonRamitBreakdown
}.

(** [calculatePersonView(person)]; [None] is [null]. *)
Definition calculatePersonView (person : string) (this : HouseholdCalculator)
    : js (option PersonView) :=
  match hc_calculations this with
  | CalculationsNull | CalculationsEmpty => Ok None
  | CalculationsOf calculations =>
      match result_entry calculations person with
      | None => Ok None
      | Some personCalc =>
          scenario ← prop_of "expenses" (hc_currentScenario this);
          ex ← prop_of "ramitCategories" (expenses scenario);
          categories ← prop_of "fixedCosts" (ramitCategories ex);
          let personExpenses := {|
            eb_fixedCosts :=
              calculateCategoryTotal (fixedCosts categories) (Some person);
            eb_investments :=
              calculateCategoryTotal (investments categories) (Some person);
            eb_savings :=
              calculateCategoryTotal (savings categories) (Some person);
            eb_guiltFreeSpending :=
              calculateCategoryTotal (guiltFreeSpending categories)
                (Some person) |} in
          let totalPersonExpenses :=
            (0 + eb_fixedCosts personExpenses + eb_investments personExpenses
             + eb_savings personExpenses
             + eb_guiltFreeSpending personExpenses)%num in
          let personSurplus :=
            (Num.of_undefined (entry_monthlyNet personCalc)
             - totalPersonExpenses)%num in
          Ok (Some {|
            pv_income := personCalc;
            pv_expenses := personExpenses;
            pv_totalExpenses := totalPersonExpenses;
            pv_surplus := personSurplus;
            pv_ramitBreakdown :=
              calculatePersonRamitBreakdown personExpenses
                (entry_monthlyNet personCalc) |})
      end
  end.

(** ** Scenario store, continued *)

(** [getCurrentScenario()]: [this.scenarios[this.currentScenario]], where a
    [null] current scenario reads the key "null". *)
Definition getCurrentScenario (this : ScenarioManager) : option Scenario :=
  scenarios this !! default "null" (currentScenario this).

(** A call that changes the manager. *)
Inductive StoreCall : Type :=
  | CallDelete (scenarioName : string)
  | CallSetCurrent (scenarioName : string).

(** The manager after a call, whatever its outcome. *)
Definition after_call (this : ScenarioManager) (call : StoreCall)
    : ScenarioManager :=
  match call with
  | CallDelete scenarioName => (deleteScenario scenarioName this).2
  | CallSetCurrent scenarioName => (setCurrentScenario scenarioName this).2
  end.

(** The manager after a sequence of calls. *)
Definition after_calls (this : ScenarioManager) (calls : list StoreCall)
    : ScenarioManager :=
  foldl after_call this calls.

(** A manager that holds the baseline and a scenario "plan", which is the
    current one; [throws] tells whether writing to storage fails. *)
Definition manager_with_plan (throws : bool) : ScenarioManager :=
  let stored : gmap string Scenario :=
    <["plan" := scenario_without_person1]>
      {["baseline" := createBaselineScenario "2025-01-01T00:00:00.000Z"]} in
  {| storage := {| allData := stored; setItem_throws := throws |};
     currentScenario := Some "plan";
     scenarios := stored;
     triggered := [] |}.

(** The property names every object inherits from [Object.prototype]; a
    table read at one of them finds the inherited value, which the finite
    maps of own properties do not hold. *)
Definition inherited_key (k : string) : bool :=
  bool_decide (k ∈ ["constructor"; "hasOwnProperty"; "isPrototypeOf";
                    "propertyIsEnumerable"; "toLocaleString"; "toString";
                    "valueOf"; "__proto__"; "__defineGetter__";
                    "__defineSetter__"; "__lookupGetter__";
                    "__lookupSetter__"]).

(** * Properties *)

(** ** Numbers *)

Section NumFacts.

Local Open Scope Qc_scope.

Lemma Qc_ltb_lt (x y : Qc) : Qc_ltb x y = true ↔ x < y.
Proof. unfold Qc_ltb. apply bool_decide_eq_true. Qed.

Lemma Qc_ltb_ge (x y : Qc) : Qc_ltb x y = false ↔ y ≤ x.
Proof.
  unfold Qc_ltb. rewrite bool_decide_eq_false. symmetry. apply Qcle_ngt.
Qed.

Lemma Qc_eqb_eq (x y : Qc) : Qc_eqb x y = true ↔ x = y.
Proof. unfold Qc_eqb. apply bool_decide_eq_true. Qed.

Lemma Qc_eqb_neq (x y : Qc) : Qc_eqb x y = false ↔ x ≠ y.
Proof. unfold Qc_eqb. apply bool_decide_eq_false. Qed.

Lemma div_Fin (x y : Qc) : y ≠ 0 → (Fin x / Fin y)%num = Fin (x / y).
Proof.
  intros Hy. unfold Num.div. by rewrite (proj2 (Qc_eqb_neq y 0) Hy).
Qed.

Lemma hundred_neq_0 : Q2Qc 100 ≠ 0.
Proof. by apply Qc_eqb_neq. Qed.

Lemma round_cents_Fin (t : Qc) :
  round_cents (Fin t)
  = Fin (Q2Qc (inject_Z (Qfloor (t * Q2Qc 100 + Q2Qc 0.5)%Qc)) / Q2Qc 100).
Proof.
  unfold round_cents, lit. cbn [Num.mul Num.round of_Z].
  apply div_Fin, hundred_neq_0.
Qed.

Lemma Q2Qc_le (a b : Q) : (a <= b)%Q → Q2Qc a ≤ Q2Qc b.
Proof.
  intros Hab. unfold Qcle, Q2Qc; cbn [this]. by rewrite !Qred_correct.
Qed.

Lemma round_cents_mono (t t' : Qc) :
  t ≤ t' →
  ∃ c c', round_cents (Fin t) = Fin c ∧ round_cents (Fin t') = Fin c' ∧ c ≤ c'.
Proof.
  intros Hle. rewrite !round_cents_Fin. do 2 eexists. do 2 (split; [done|]).
  assert (Hfl : (Qfloor (t * Q2Qc 100 + Q2Qc 0.5)%Qc
                 ≤ Qfloor (t' * Q2Qc 100 + Q2Qc 0.5)%Qc)%Z).
  { apply Qfloor_resp_le.
    unfold Qcle, Qcplus, Qcmult, Q2Qc in *; cbn [this] in *.
    repeat rewrite Qred_correct. nra. }
  unfold Qcdiv. apply Qcmult_le_compat_r; [|done].
  apply Q2Qc_le. by rewrite <- Zle_Qle.
Qed.

End NumFacts.

(** ** Bracket loops *)

Section Brackets.

Local Open Scope Qc_scope.

Ltac qc_props :=
  repeat match goal with
  | H : Qc_ltb _ _ = true |- _ => apply Qc_ltb_lt in H
  | H : Qc_ltb _ _ = false |- _ => apply Qc_ltb_ge in H
  | H : bool_decide _ = true |- _ => apply bool_decide_eq_true in H
  | H : _ && _ = true |- _ => apply andb_prop in H; destruct H
  end.

Ltac qc_nra :=
  qc_props;
  unfold Qcle, Qclt, Qcplus, Qcminus, Qcopp, Qcmult, Q2Qc in *;
  cbn [this] in *; repeat rewrite Qred_correct in *; nra.

Lemma bracket_step_mono (b : Bracket) (x y ax ay : Qc) :
  bracket_ok b = true → x ≤ y → ax ≤ ay →
  ∃ tx ty, bracket_step (Fin x) (Fin ax) b = Fin tx
           ∧ bracket_step (Fin y) (Fin ay) b = Fin ty
           ∧ tx ≤ ty.
Proof.
  destruct b as [[| |lo] hi [| |r]]; try discriminate.
  destruct hi as [|[]|hi]; try discriminate;
    unfold bracket_ok, bracket_step; cbn; intros Hok Hxy Ha.
  - destruct (Qc_ltb lo x) eqn:Hx, (Qc_ltb lo y) eqn:Hy;
      do 2 eexists; (split; [done|]); (split; [done|]); qc_nra.
  - destruct (Qc_ltb lo x) eqn:Hx, (Qc_ltb lo y) eqn:Hy;
      destruct (Qc_ltb hi x) eqn:Hhx, (Qc_ltb hi y) eqn:Hhy;
      do 2 eexists; (split; [done|]); (split; [done|]); qc_nra.
Qed.

Lemma bracket_fold_mono (bs : list Bracket) :
  forallb bracket_ok bs = true →
  ∀ x y ax ay : Qc, x ≤ y → ax ≤ ay →
  ∃ tx ty, foldl (bracket_step (Fin x)) (Fin ax) bs = Fin tx
           ∧ foldl (bracket_step (Fin y)) (Fin ay) bs = Fin ty
           ∧ tx ≤ ty.
Proof.
  induction bs as [|b bs IH]; intros Hok x y ax ay Hxy Ha.
  - by exists ax, ay.
  - cbn in Hok. apply andb_prop in Hok as [Hb Hbs]. cbn [foldl].
    destruct (bracket_step_mono b x y ax ay Hb Hxy Ha)
      as (tx & ty & -> & -> & Ht).
    by apply IH.
Qed.

Lemma bracket_fold_Fin (bs : list Bracket) (x : Qc) :
  forallb bracket_ok bs = true →
  ∃ t, foldl (bracket_step (Fin x)) 0%num bs = Fin t.
Proof.
  intros Hok.
  destruct (bracket_fold_mono bs Hok x x 0 0) as (t & _ & Ht & _); [done..|].
  by exists t.
Qed.

End Brackets.

(** ** The tables of [new TaxCalculator()] *)

Section Tables.

Lemma federalBrackets_ok (status : string) (brackets : list Bracket) :
  federalBrackets new_TaxCalculator !! status = Some brackets →
  forallb bracket_ok brackets = true.
Proof.
  intros Hin. apply elem_of_list_to_map_2 in Hin.
  repeat (apply elem_of_cons in Hin as [[= _ ->]|Hin]; [by vm_compute|]).
  by apply elem_of_nil in Hin.
Qed.

Lemma stateTaxRates_ok (state : string) (rule : StateTaxRule) :
  stateTaxRates new_TaxCalculator !! state = Some rule →
  rule_ok rule = true.
Proof.
  intros Hin. apply elem_of_list_to_map_2 in Hin.
  repeat (apply elem_of_cons in Hin as [[= _ ->]|Hin]; [by vm_compute|]).
  by apply elem_of_nil in Hin.
Qed.

Lemma getStandardDeduction_Fin (filingStatus : option string) :
  ∃ d, getStandardDeduction new_TaxCalculator filingStatus = Fin d.
Proof.
  unfold getStandardDeduction.
  destruct (standardDeductions new_TaxCalculator !! key_of filingStatus)
    as [d|] eqn:Hd.
  - apply elem_of_list_to_map_2 in Hd.
    repeat (apply elem_of_cons in Hd as [[= _ ->]|Hd]; [by eexists|]).
    by apply elem_of_nil in Hd.
  - by eexists.
Qed.

End Tables.

(** ** Tax engine *)

Section TaxEngine.

Local Open Scope Qc_scope.

Lemma calculateFederalTax_eq (this : TaxCalculator) (x : num)
    (status : string) (brackets : list Bracket) :
  federalBrackets this !! status = Some brackets →
  calculateFederalTax this x (Some status)
  = Ok (round_cents (foldl (bracket_step x) 0%num brackets)).
Proof. intros Hb. unfold calculateFederalTax. cbn. by rewrite Hb. Qed.

(** C5: federal tax is monotonically non-decreasing in taxable income,
    for every filing status of the bracket table (the bound [0 ≤ x] of
    the claim is not needed). *)
Theorem calculateFederalTax_monotone (status : string) (x y : Qc) :
  is_Some (federalBrackets new_TaxCalculator !! status) →
  x ≤ y →
  ∃ tx ty,
    calculateFederalTax new_TaxCalculator (Fin x) (Some status) = Ok (Fin tx)
    ∧ calculateFederalTax new_TaxCalculator (Fin y) (Some status) = Ok (Fin ty)
    ∧ tx ≤ ty.
Proof.
  intros [brackets Hb] Hxy.
  rewrite !(calculateFederalTax_eq _ _ _ _ Hb). change 0%num with (Fin 0).
  destruct (bracket_fold_mono brackets (federalBrackets_ok _ _ Hb) x y 0 0)
    as (sx & sy & -> & -> & Hs); [done..|].
  destruct (round_cents_mono sx sy Hs) as (tx & ty & -> & -> & Ht).
  by exists tx, ty.
Qed.

Lemma calculateFederalTax_monotone_witness :
  ∃ tx ty,
    calculateFederalTax new_TaxCalculator (lit 50000) (Some "single") = Ok (Fin tx)
    ∧ calculateFederalTax new_TaxCalculator (lit 50000.5) (Some "single") = Ok (Fin ty)
    ∧ tx ≤ ty.
Proof.
  apply (calculateFederalTax_monotone "single" (Q2Qc 50000) (Q2Qc 50000.5)).
  - vm_compute. by eexists.
  - by vm_compute.
Defined.

Lemma max_0_Fin (x : Qc) : ∃ t, Num.max 0%num (Fin x) = Fin t.
Proof. unfold Num.max. cbn. destruct (Qc_ltb _ _); by eexists. Qed.

Lemma calculateStateTax_Fin (x : Qc) (state : option string) :
  ∃ t, calculateStateTax new_TaxCalculator (Fin x) state = Fin t.
Proof.
  unfold calculateStateTax.
  destruct (stateTaxRates new_TaxCalculator !! key_of state)
    as [rule|] eqn:Hrule; [|by eexists].
  apply stateTaxRates_ok in Hrule.
  destruct rule as [|[| |r]|brackets]; try discriminate; [by eexists..|].
  destruct (bracket_fold_Fin brackets x Hrule) as [t Ht].
  fold (bracket_step (Fin x)). rewrite Ht, round_cents_Fin. by eexists.
Qed.

Lemma calculateFICA_total_Fin (w : Qc) :
  ∃ t, total (calculateFICA new_TaxCalculator (Fin w)) = Fin t.
Proof.
  unfold calculateFICA. cbn -[round_cents].
  destruct (Qc_ltb _ w), (Qc_ltb _ w); cbn -[round_cents];
    rewrite round_cents_Fin; by eexists.
Qed.




Lemma additionalMedicare_as_max (w : Qc) :
  (if Num.gtb (Fin w) (lit 200000)
   then (Fin w - lit 200000) * lit 0.009 else 0)%num
  = (Num.max 0 (Fin w - lit 200000) * lit 0.009)%num.
Proof.
  unfold Num.gtb, Num.max, lit. cbn.
  destruct (Qc_ltb (Q2Qc 200000) w) eqn:Hw,
           (Qc_ltb (Q2Qc 0) (w + - Q2Qc 200000)) eqn:Hd; cbn.
  - done.
  - apply Qc_ltb_lt in Hw. apply Qc_ltb_ge in Hd.
    exfalso. apply (Qclt_not_le _ _ Hw).
    apply (Qcplus_le_mono_r _ _ (- Q2Qc 200000)).
    by rewrite Qcplus_opp_r.
  - apply Qc_ltb_ge in Hw. apply Qc_ltb_lt in Hd.
    exfalso. apply (Qclt_not_le _ _ Hd).
    rewrite <- (Qcplus_opp_r (Q2Qc 200000)).
    by apply Qcplus_le_mono_r.
  - f_equal. ring.
Qed.




(** C10: for a filing status that is not a key of the federal bracket
    table, [calculateMarginalRate] raises a TypeError, whatever the
    taxable income and the state, and so returns no percentage. *)
Theorem calculateMarginalRate_unknown_status (this : TaxCalculator)
    (taxableIncome : num) (filingStatus state : option string) :
  federalBrackets this !! key_of filingStatus = None →
  (∃ msg, calculateMarginalRate this taxableIncome filingStatus state
          = Throw (TypeError msg))
  ∧ ∀ rate, calculateMarginalRate this taxableIncome filingStatus state
            ≠ Ok rate.
Proof.
  intros Hnone. unfold calculateMarginalRate. rewrite Hnone.
  split; [by eexists|done].
Qed.

Lemma calculateMarginalRate_unknown_status_witness :
  federalBrackets new_TaxCalculator !! "widowed" = None
  ∧ (∃ msg, calculateMarginalRate new_TaxCalculator (lit 50000)
              (Some "widowed") (Some "CA") = Throw (TypeError msg))
  ∧ ∀ rate, calculateMarginalRate new_TaxCalculator (lit 50000)
              (Some "widowed") (Some "CA") ≠ Ok rate.
Proof.
  split; [by vm_compute|].
  apply (calculateMarginalRate_unknown_status new_TaxCalculator
           (lit 50000) (Some "widowed") (Some "CA")).
  by vm_compute.
Defined.

(** The figures the specification quotes for the tax engine. *)

Example calculateFICA_at_wage_base :
  socialSecurity (calculateFICA new_TaxCalculator (lit 176100)) = lit 10918.2.
Proof. compute_done. Qed.

Example calculateFICA_at_200000 :
  additionalMedicare (calculateFICA new_TaxCalculator (lit 200000)) = 0%num.
Proof. compute_done. Qed.

Example calculateFICA_at_250000 :
  additionalMedicare (calculateFICA new_TaxCalculator (lit 250000)) = lit 450.
Proof. compute_done. Qed.

Example calculateFederalTax_of_0 :
  Forall (fun status =>
            calculateFederalTax new_TaxCalculator 0%num (Some status) = Ok 0%num)
    ["single"; "marriedFilingJointly"; "marriedFilingSeparately";
     "headOfHousehold"].
Proof.
  repeat (apply List.Forall_cons; [compute_done|]).
  apply List.Forall_nil.
Qed.

Example calculateFederalTax_at_boundary :
  calculateFederalTax new_TaxCalculator (lit 46650) (Some "single")
  = Ok (lit 5367)
  ∧ calculateFederalTax new_TaxCalculator (lit 46650.5) (Some "single")
    = Ok (lit 5367.11).
Proof. split; compute_done. Qed.

End TaxEngine.

(** ** Expense categorizer *)

Section ExpenseCategorizer.

Local Open Scope Qc_scope.

Lemma half_add (a b : num) :
  ((a + b) / lit 2)%num = (a / lit 2 + b / lit 2)%num.
Proof.
  assert (He : Qc_eqb (Q2Qc 2) 0 = false) by by vm_compute.
  assert (Hl : Qc_ltb (Q2Qc 2) 0 = false) by by vm_compute.
  destruct a as [|[]|x], b as [|[]|y];
    unfold lit, Num.div, Num.add, scaled_sign; rewrite ?He, ?Hl; try done.
  f_equal. unfold Qcdiv. ring.
Qed.

Lemma processItem_shared_half (person : string) (amount total : num) :
  person ≠ "" → person ≠ "shared" →
  processItem (Some person) amount (Some "shared") (total / lit 2)%num
  = (processItem None amount (Some "shared") total / lit 2)%num.
Proof.
  intros Hne Hns. unfold processItem.
  destruct (Num.truthy amount); [|done].
  assert (Htruthy : truthy_string (Some person) = true).
  { cbn. apply negb_true_iff. by apply String.eqb_neq. }
  rewrite Htruthy. cbn [negb truthy_string andb].
  rewrite bool_decide_eq_false_2 by congruence.
  rewrite bool_decide_eq_true_2 by done.
  cbn [andb]. by rewrite half_add.
Qed.

Lemma traverseCategory_shared_half (person : string) (cat : ExpenseNode) :
  person ≠ "" → person ≠ "shared" →
  all_shared cat = true →
  ∀ total,
    traverseCategory (Some person) cat (total / lit 2)%num
    = (traverseCategory None cat total / lit 2)%num.
Proof.
  intros Hne Hns. induction cat as [| |children IH]
    using ExpenseNode_children_ind; intros Hshared total; [done..|].
  cbn [traverseCategory]. cbn [all_shared] in Hshared.
  revert total.
  induction IH as [|[key child] rest IHchild _ IHrest]; intros total;
    [done|].
  apply andb_prop in Hshared as [Hchild Hrest].
  specialize (IHrest Hrest).
  destruct child as [|amount assignedTo|grandchildren].
  - apply IHrest.
  - cbn in Hchild. apply bool_decide_eq_true in Hchild as ->.
    rewrite processItem_shared_half by done. apply IHrest.
  - cbn [snd] in IHchild. rewrite (IHchild Hchild). apply IHrest.
Qed.

(** C7: over a tree of which every item is assigned to "shared", the
    total for a person filter is half of the unfiltered total.  A person
    filter is a non-empty member name; "shared" is the tag of the split
    items, not a member. *)
Theorem calculateCategoryTotal_shared_half (category : ExpenseNode)
    (person : string) :
  all_shared category = true →
  person ≠ "" → person ≠ "shared" →
  calculateCategoryTotal (Some category) (Some person)
  = (calculateCategoryTotal (Some category) None / lit 2)%num.
Proof.
  intros Hshared Hne Hns. unfold calculateCategoryTotal.
  rewrite <- (traverseCategory_shared_half person category Hne Hns Hshared).
  f_equal. compute_done.
Qed.

Lemma calculateCategoryTotal_shared_half_witness :
  let savings := Category
    [ ("emergency", Item (lit 800) (Some "shared"));
      ("vacation", Item (lit 400) (Some "shared"));
      ("goals", Category
         [ ("houseDownPayment", Item (lit 1000) (Some "shared")) ]) ] in
  calculateCategoryTotal (Some savings) (Some "person1")
  = (calculateCategoryTotal (Some savings) None / lit 2)%num.
Proof.
  intros savings.
  apply (calculateCategoryTotal_shared_half savings "person1").
  - by vm_compute.
  - done.
  - done.
Defined.

End ExpenseCategorizer.

(** ** Household calculator *)

Section HouseholdCalculator.

(** C9: the net annual income is divided by 52, 26, 24 or 12 for a
    weekly, biweekly, semimonthly or monthly pay frequency, and by 26 for
    every other value of the frequency. *)
Theorem calculateBiweeklyPay_by_frequency (annualNet : num) :
  calculateBiweeklyPay annualNet (Some "weekly") = (annualNet / lit 52)%num
  ∧ calculateBiweeklyPay annualNet (Some "biweekly") = (annualNet / lit 26)%num
  ∧ calculateBiweeklyPay annualNet (Some "semimonthly") = (annualNet / lit 24)%num
  ∧ calculateBiweeklyPay annualNet (Some "monthly") = (annualNet / lit 12)%num
  ∧ ∀ payFrequency,
      payFrequency ≠ Some "weekly" → payFrequency ≠ Some "biweekly" →
      payFrequency ≠ Some "semimonthly" → payFrequency ≠ Some "monthly" →
      calculateBiweeklyPay annualNet payFrequency = (annualNet / lit 26)%num.
Proof.
  repeat split; [done..|].
  intros payFrequency Hw Hb Hs Hm. unfold calculateBiweeklyPay.
  by rewrite !bool_decide_eq_false_2.
Qed.

Lemma calculateBiweeklyPay_by_frequency_witness :
  calculateBiweeklyPay (lit 52000) (Some "weekly") = lit 1000
  ∧ calculateBiweeklyPay (lit 52000) (Some "biweekly") = lit 2000
  ∧ calculateBiweeklyPay (lit 52000) (Some "quarterly") = lit 2000
  ∧ calculateBiweeklyPay (lit 52000) None = lit 2000.
Proof.
  destruct (calculateBiweeklyPay_by_frequency (lit 52000))
    as (Hw & Hb & _ & _ & Hother).
  split; [rewrite Hw; compute_done|].
  split; [rewrite Hb; compute_done|].
  split; (rewrite Hother; [compute_done|done..]).
Defined.

(** Whenever [calculateScenario] returns a result, the household
    [effectiveRate] is the quotient of the household figures, times 100;
    nothing guards the division. *)
Lemma calculateScenario_effectiveRate_formula (taxCalc : TaxCalculator)
    (scenario : Scenario) (r : ScenarioResult) :
  calculateScenario taxCalc (Some scenario) = Ok (Some r) →
  hh_effectiveRate (res_household r)
  = (hh_totalTaxes (res_household r) / hh_grossIncome (res_household r)
     * lit 100)%num.
Proof.
  unfold calculateScenario.
  destruct (income scenario) as [inc|]; [cbn|done].
  destruct (calculatePersonIncome taxCalc (person1 inc) scenario)
    as [person1Calc|]; [cbn|done].
  destruct (calculatePersonIncome taxCalc (person2 inc) scenario)
    as [person2Calc|]; [cbn -[calculateHouseholdExpenses]|done].
  destruct (calculateHouseholdExpenses (expenses scenario))
    as [householdExpenses|]; [cbn -[calculateRamitBreakdown]|done].
  destruct (calculateRamitBreakdown (expenses scenario) _)
    as [ramitBreakdown|]; [cbn|done].
  by intros [= <-].
Qed.

(** C3 fails where the household has no income: the total gross income
    and the total tax are 0, and the household [effectiveRate] is [NaN]
    (0 / 0), not 0, while [calculateEffectiveRate] of the tax engine
    returns 0 for the same figures. *)
Theorem calculateScenario_effectiveRate_no_income :
  let res := calculateScenario new_TaxCalculator (Some no_income_scenario) in
  hh_grossIncome <$> household_of res = Some 0%num
  ∧ hh_totalTaxes <$> household_of res = Some 0%num
  ∧ hh_effectiveRate <$> household_of res = Some NaN
  ∧ calculateEffectiveRate 0%num 0%num = 0%num.
Proof. cbv zeta. repeat split; compute_done. Qed.

(** C2, as stated, fails: without the [income] subtree, and without the
    [expenses] subtree, [calculateScenario] raises a TypeError. *)
Lemma calculateScenario_missing_subtree_counterexample :
  calculateScenario new_TaxCalculator (Some scenario_without_income)
  = Throw (TypeError "Cannot read properties of undefined (person1)")
  ∧ calculateScenario new_TaxCalculator (Some scenario_without_expenses)
    = Throw (TypeError "Cannot read properties of undefined (ramitCategories)").
Proof. split; by vm_compute. Qed.

Lemma calculateHouseholdExpenses_Ok (ex : Expenses) (cats : RamitCategories) :
  ramitCategories ex = Some cats →
  ∃ he, calculateHouseholdExpenses (Some ex) = Ok he.
Proof. intros Hc. unfold calculateHouseholdExpenses. cbn. rewrite Hc. by eexists. Qed.

Lemma calculateRamitBreakdown_Ok (ex : Expenses) (cats : RamitCategories)
    (netIncome : num) :
  ramitCategories ex = Some cats →
  ∃ rb, calculateRamitBreakdown (Some ex) netIncome = Ok rb.
Proof. intros Hc. unfold calculateRamitBreakdown. cbn. rewrite Hc. by eexists. Qed.

(** C2, amended: a scenario without its [income] subtree makes
    [calculateScenario] raise a TypeError and one without its [expenses]
    subtree makes it raise an error.  What degrades to zero figures is a
    missing person: when [income] and [expenses.ramitCategories] are
    there and the calculation of the other person succeeds, the result
    carries the all-zero calculation for the missing person.  A missing
    category branch totals 0. *)
Theorem calculateScenario_missing_parts (taxCalc : TaxCalculator)
    (scenario : Scenario) :
  (income scenario = None →
     ∃ msg, calculateScenario taxCalc (Some scenario) = Throw (TypeError msg))
  ∧ (expenses scenario = None →
     ∃ e, calculateScenario taxCalc (Some scenario) = Throw e)
  ∧ (∀ inc ex cats other,
       income scenario = Some inc →
       expenses scenario = Some ex →
       ramitCategories ex = Some cats →
       (person1 inc = None →
        calculatePersonIncome taxCalc (person2 inc) scenario = Ok other →
        ∃ r, calculateScenario taxCalc (Some scenario) = Ok (Some r)
             ∧ res_person1 r = getEmptyPersonCalculation
             ∧ res_person2 r = other)
       ∧ (person2 inc = None →
          calculatePersonIncome taxCalc (person1 inc) scenario = Ok other →
          ∃ r, calculateScenario taxCalc (Some scenario) = Ok (Some r)
               ∧ res_person1 r = other
               ∧ res_person2 r = getEmptyPersonCalculation))
  ∧ (∀ person, calculateCategoryTotal None person = 0%num).
Proof.
  split; [|split; [|split; [|done]]].
  - intros Hinc. unfold calculateScenario. rewrite Hinc. by eexists.
  - intros Hex. unfold calculateScenario. rewrite Hex.
    destruct (income scenario) as [inc|]; [|by eexists]. cbn.
    destruct (calculatePersonIncome taxCalc (person1 inc) scenario);
      [|by eexists]. cbn.
    destruct (calculatePersonIncome taxCalc (person2 inc) scenario);
      by eexists.
  - intros inc ex cats other Hinc Hex Hcats.
    unfold calculateScenario. rewrite Hinc, Hex.
    cbn -[calculateHouseholdExpenses calculateRamitBreakdown].
    split; intros Hnone Hother.
    + rewrite Hnone, Hother. cbn -[calculateHouseholdExpenses calculateRamitBreakdown].
      destruct (calculateHouseholdExpenses_Ok ex cats Hcats) as [he ->].
      cbn -[calculateRamitBreakdown].
      match goal with
      | |- context [calculateRamitBreakdown (Some ex) ?net] =>
          destruct (calculateRamitBreakdown_Ok ex cats net Hcats) as [rb ->]
      end.
      cbn. by eexists.
    + rewrite Hnone, Hother. cbn -[calculateHouseholdExpenses calculateRamitBreakdown].
      destruct (calculateHouseholdExpenses_Ok ex cats Hcats) as [he ->].
      cbn -[calculateRamitBreakdown].
      match goal with
      | |- context [calculateRamitBreakdown (Some ex) ?net] =>
          destruct (calculateRamitBreakdown_Ok ex cats net Hcats) as [rb ->]
      end.
      cbn. by eexists.
Qed.

Lemma calculateScenario_missing_parts_witness :
  (∃ msg, calculateScenario new_TaxCalculator (Some scenario_without_income)
          = Throw (TypeError msg))
  ∧ (∃ e, calculateScenario new_TaxCalculator (Some scenario_without_expenses)
          = Throw e)
  ∧ (∃ r, calculateScenario new_TaxCalculator (Some scenario_without_person1)
          = Ok (Some r)
          ∧ res_person1 r = getEmptyPersonCalculation).
Proof.
  destruct (calculateScenario_missing_parts new_TaxCalculator
              scenario_without_income) as (Hincome & _).
  destruct (calculateScenario_missing_parts new_TaxCalculator
              scenario_without_expenses) as (_ & Hexpenses & _).
  destruct (calculateScenario_missing_parts new_TaxCalculator
              scenario_without_person1) as (_ & _ & Hperson & _).
  split; [by apply Hincome|]. split; [by apply Hexpenses|].
  edestruct Hperson as [Hperson1 _]; [done..|].
  destruct Hperson1 as (r & Hr & Hempty & _); [done| |by exists r].
  vm_compute. reflexivity.
Defined.

End HouseholdCalculator.

(** ** Scenario store *)

Section ScenarioStore.

(** C8: whatever the state of the manager, and whichever scenario is
    current, [deleteScenario("baseline")] throws the error "Cannot delete
    baseline scenario" and leaves the manager, with its scenarios and the
    persisted collection, as it was. *)
Theorem deleteScenario_baseline_protected (this : ScenarioManager) :
  deleteScenario "baseline" this
  = (Throw (Error "Cannot delete baseline scenario"), this).
Proof. done. Qed.

(** For contrast: another stored scenario is removed from the collection
    and from storage when the write succeeds, and the current scenario
    falls back to "baseline" when the deleted one was current. *)
Lemma deleteScenario_removes (scenarioName : string) (this : ScenarioManager)
    (scenario : Scenario) :
  scenarioName ≠ "baseline" →
  scenarios this !! scenarioName = Some scenario →
  setItem_throws (storage this) = false →
  let this' := (deleteScenario scenarioName this).2 in
  (deleteScenario scenarioName this).1 = Ok true
  ∧ scenarios this' !! scenarioName = None
  ∧ allData (storage this') !! scenarioName = None
  ∧ (currentScenario this = Some scenarioName →
     is_Some (scenarios this !! "baseline") →
     currentScenario this' = Some "baseline").
Proof.
  intros Hname Hstored Hwrite. unfold deleteScenario.
  rewrite (proj2 (String.eqb_neq _ _) Hname), Hstored.
  unfold storage_deleteScenario. rewrite Hwrite.
  cbn [currentScenario].
  destruct (bool_decide (currentScenario this = Some scenarioName)) eqn:Hcur;
    cbn.
  - repeat split; try apply lookup_delete_eq.
    + unfold setCurrentScenario; cbn.
      destruct (delete scenarioName (scenarios this) !! "baseline");
        cbn; apply lookup_delete_eq.
    + unfold setCurrentScenario; cbn.
      destruct (delete scenarioName (scenarios this) !! "baseline");
        cbn; apply lookup_delete_eq.
    + intros _ [baseline Hbaseline]. unfold setCurrentScenario; cbn.
      rewrite lookup_delete_ne by done. by rewrite Hbaseline.
  - apply bool_decide_eq_false in Hcur.
    repeat split; try apply lookup_delete_eq. by intros ?.
Qed.

End ScenarioStore.

(** * Further properties *)

(** ** Rounding and bracket sums *)

Lemma this_plus (x y : Qc) : (this (x + y)%Qc == this x + this y)%Q.
Proof. apply Qred_correct. Qed.

Lemma this_minus (x y : Qc) : (this (x - y)%Qc == this x - this y)%Q.
Proof.
  unfold Qcminus, Qcplus, Qcopp, Q2Qc; cbn [this].
  rewrite Qred_correct. by rewrite Qred_correct.
Qed.

Lemma this_mult (x y : Qc) : (this (x * y)%Qc == this x * this y)%Q.
Proof. apply Qred_correct. Qed.

Lemma this_opp (x : Qc) : (this (- x)%Qc == - this x)%Q.
Proof. apply Qred_correct. Qed.

Lemma this_Q2Qc (q : Q) : (this (Q2Qc q) == q)%Q.
Proof. apply Qred_correct. Qed.

Ltac qc_hyps :=
  repeat match goal with
  | H : Qc_ltb _ _ = true |- _ => apply Qc_ltb_lt in H
  | H : Qc_ltb _ _ = false |- _ => apply Qc_ltb_ge in H
  | H : bool_decide _ = true |- _ => apply bool_decide_eq_true in H
  | H : _ && _ = true |- _ => apply andb_prop in H; destruct H
  | H : @eq Qc ?a ?b |- _ =>
      let H' := fresh in
      assert (H' : (this a == this b)%Q) by (rewrite H; reflexivity); clear H
  end.

Ltac qc_arith :=
  qc_hyps;
  try (apply Qc_is_canon);
  unfold Qcle, Qclt in *;
  repeat (progress
            rewrite ?this_plus, ?this_minus, ?this_mult, ?this_opp,
                    ?this_Q2Qc in * );
  first [lra | nra].

Section Bounds.

Local Open Scope Qc_scope.

Lemma round_cents_bounds (t : Qc) :
  ∃ c, round_cents (Fin t) = Fin c
       ∧ t - Q2Qc 0.005 < c ∧ c ≤ t + Q2Qc 0.005
       ∧ (0 ≤ t → 0 ≤ c ∧ c ≤ Q2Qc 2 * t).
Proof.
  rewrite round_cents_Fin. eexists. split; [done|].
  set (n := Qfloor (t * Q2Qc 100 + Q2Qc 0.5)%Qc).
  assert (Hlo : (inject_Z n <= t * Q2Qc 100 + Q2Qc 0.5)%Q).
  { eapply Qle_trans; [apply Qfloor_le|].
    unfold Qcplus, Qcmult, Q2Qc; cbn [this]. repeat rewrite Qred_correct. lra. }
  assert (Hhi : (t * Q2Qc 100 + Q2Qc 0.5 < inject_Z (n + 1))%Q).
  { eapply Qle_lt_trans; [|apply Qlt_floor].
    unfold Qcplus, Qcmult, Q2Qc; cbn [this]. repeat rewrite Qred_correct. lra. }
  rewrite inject_Z_plus in Hhi. change (inject_Z 1) with 1%Q in Hhi.
  assert (Hdiv : Q2Qc (inject_Z n) / Q2Qc 100 = Q2Qc (inject_Z n) * Q2Qc 0.01).
  { done. }
  rewrite Hdiv. clear Hdiv. clearbody n.
  split; [qc_arith|]. split; [qc_arith|].
  intros Ht.
  destruct (Z_le_gt_dec n 0) as [Hn|Hn].
  - assert (n = 0)%Z as ->.
    { apply Z.le_antisymm; [done|]. apply Z.lt_succ_r.
      rewrite Zlt_Qlt. unfold Z.succ. rewrite inject_Z_plus.
      change (inject_Z 1) with 1%Q. change (inject_Z 0) with 0%Q. qc_arith. }
    change (inject_Z 0) with 0%Q in *.
    split; qc_arith.
  - assert (Hn1 : (1 <= inject_Z n)%Q).
    { change 1%Q with (inject_Z 1). rewrite <- Zle_Qle. lia. }
    split; qc_arith.
Qed.

Lemma round_cents_floor (t : Qc) :
  ∃ n : Z,
    round_cents (Fin t) = Fin (Q2Qc (inject_Z n) * Q2Qc 0.01)
    ∧ (inject_Z n <= t * 100 + 0.5)%Q
    ∧ (t * 100 + 0.5 < inject_Z n + 1)%Q.
Proof.
  rewrite round_cents_Fin.
  exists (Qfloor (t * Q2Qc 100 + Q2Qc 0.5)%Qc). split; [done|]. split.
  - eapply Qle_trans; [apply Qfloor_le|].
    rewrite this_plus, this_mult, !this_Q2Qc. lra.
  - change 1%Q with (inject_Z 1). rewrite <- inject_Z_plus.
    eapply Qle_lt_trans; [|apply Qlt_floor].
    rewrite this_plus, this_mult, !this_Q2Qc. lra.
Qed.

Lemma round_cents_0 : round_cents (Fin 0) = Fin 0.
Proof. compute_done. Qed.

Lemma bracket_fold_upper (rmax : Qc) (bs : list Bracket) :
  0 ≤ rmax →
  ∀ (lo x acc : Qc),
    contiguous_from lo bs = true → rates_within rmax bs = true →
    ∃ t, foldl (bracket_step (Fin x)) (Fin acc) bs = Fin t
         ∧ acc ≤ t
         ∧ (x ≤ lo → t = acc)
         ∧ (lo ≤ x → t ≤ acc + rmax * (x - lo)).
Proof.
  intros Hrmax. induction bs as [|b bs IH]; intros lo x acc Hcont Hrates.
  - exists acc. cbn. split; [done|]. split; [apply Qcle_refl|].
    split; [done|]. intros Hx. qc_arith.
  - destruct b as [[| |m] hi [| |r]]; try discriminate.
    cbn [contiguous_from b_min b_max] in Hcont.
    cbn [rates_within forallb b_rate] in Hrates.
    apply andb_prop in Hrates as [Hr Hrates]. fold (rates_within rmax bs) in Hrates.
    destruct hi as [|[]|hi]; try discriminate.
    + destruct bs as [|]; [|by rewrite andb_false_r in Hcont].
      cbn. unfold bracket_step. cbn.
      destruct (Qc_ltb m x) eqn:Hx; eexists; (split; [done|]);
        (split; [|split; intros ?]); qc_arith.
    + apply andb_prop in Hcont as [Hcont Hrest].
      cbn [foldl]. unfold bracket_step at 2. cbn.
      destruct (Qc_ltb m x) eqn:Hx; destruct (Qc_ltb hi x) eqn:Hhx; cbn;
        match goal with
        | |- context [foldl _ (Fin ?a) bs] =>
            destruct (IH hi x a Hrest Hrates) as (t & -> & Hle & Hbelow & Habove)
        end;
        exists t; (split; [done|]); (split; [|split; intros ?]);
        qc_hyps;
        try (assert (x ≤ hi) as Hxhi by qc_arith; specialize (Hbelow Hxhi));
        try (assert (hi ≤ x) as Hhix by qc_arith; specialize (Habove Hhix));
        qc_arith.
Qed.

End Bounds.

(** ** The tables, continued *)

Section TableBounds.

Local Open Scope Qc_scope.

Lemma federalBrackets_within (status : string) (brackets : list Bracket) :
  federalBrackets new_TaxCalculator !! status = Some brackets →
  contiguous_from 0 brackets = true
  ∧ rates_within (Q2Qc 0.37) brackets = true
  ∧ rates_ascending 0 brackets = true.
Proof.
  intros Hin. apply elem_of_list_to_map_2 in Hin.
  repeat (apply elem_of_cons in Hin as [[= _ ->]|Hin]; [by vm_compute|]).
  by apply elem_of_nil in Hin.
Qed.

Lemma stateTaxRates_within (state : string) (rule : StateTaxRule) :
  stateTaxRates new_TaxCalculator !! state = Some rule →
  rule_within (Q2Qc 0.123) rule = true.
Proof.
  intros Hin. apply elem_of_list_to_map_2 in Hin.
  repeat (apply elem_of_cons in Hin as [[= _ ->]|Hin]; [by vm_compute|]).
  by apply elem_of_nil in Hin.
Qed.

Lemma getStandardDeduction_values (filingStatus : option string) :
  getStandardDeduction new_TaxCalculator filingStatus = lit 15000
  ∨ getStandardDeduction new_TaxCalculator filingStatus = lit 22500
  ∨ getStandardDeduction new_TaxCalculator filingStatus = lit 30000.
Proof.
  unfold getStandardDeduction.
  destruct (standardDeductions new_TaxCalculator !! key_of filingStatus)
    as [d|] eqn:Hd.
  - apply elem_of_list_to_map_2 in Hd.
    repeat (apply elem_of_cons in Hd as [[= _ ->]|Hd];
            [vm_compute; by eauto|]).
    by apply elem_of_nil in Hd.
  - vm_compute; by eauto.
Qed.

End TableBounds.

(** ** Tax engine, continued *)

Section TaxEngineBounds.

Local Open Scope Qc_scope.

(** The unrounded bracket sum behind [calculateFederalTax]. *)
Lemma calculateFederalTax_sum (status : string) (x : Qc) :
  is_Some (federalBrackets new_TaxCalculator !! status) →
  ∃ s t,
    calculateFederalTax new_TaxCalculator (Fin x) (Some status) = Ok (Fin t)
    ∧ round_cents (Fin s) = Fin t
    ∧ 0 ≤ s ∧ (x ≤ 0 → s = 0) ∧ (0 ≤ x → s ≤ Q2Qc 0.37 * x).
Proof.
  intros [brackets Hb].
  rewrite (calculateFederalTax_eq _ _ _ _ Hb). change 0%num with (Fin 0).
  destruct (federalBrackets_within _ _ Hb) as (Hcont & Hrates & _).
  destruct (bracket_fold_upper (Q2Qc 0.37) brackets ltac:(by vm_compute)
              0 x 0 Hcont Hrates) as (s & -> & Hs0 & Hbelow & Habove).
  destruct (round_cents_bounds s) as (t & Ht & _).
  exists s, t. rewrite Ht. do 3 (split; [done|]).
  split; [done|]. intros Hx. specialize (Habove Hx). qc_arith.
Qed.

(** The federal tax on a finite income. *)
Lemma calculateFederalTax_range (status : string) (x : Qc) :
  is_Some (federalBrackets new_TaxCalculator !! status) →
  ∃ t, calculateFederalTax new_TaxCalculator (Fin x) (Some status) = Ok (Fin t)
       ∧ 0 ≤ t
       ∧ (x ≤ 0 → t = 0)
       ∧ (0 ≤ x → t ≤ Q2Qc 0.37 * x + Q2Qc 0.005).
Proof.
  intros Hstatus.
  destruct (calculateFederalTax_sum status x Hstatus)
    as (s & t & -> & Ht & Hs0 & Hzero & Hupper).
  destruct (round_cents_bounds s) as (t' & Ht' & _ & Hround & Hpos).
  rewrite Ht in Ht'. injection Ht' as <-.
  destruct (Hpos Hs0) as [Ht0 _].
  exists t. split; [done|]. split; [done|]. split.
  - intros Hx. rewrite (Hzero Hx), round_cents_0 in Ht. by injection Ht.
  - intros Hx. specialize (Hupper Hx). qc_arith.
Qed.

(** X1: on a taxable income that is zero or negative, [calculateFederalTax]
    returns exactly 0 for every filing status of the bracket table: no
    bracket is entered. *)
Theorem calculateFederalTax_zero_below_0 (status : string) (x : Qc) :
  is_Some (federalBrackets new_TaxCalculator !! status) →
  x ≤ 0 →
  calculateFederalTax new_TaxCalculator (Fin x) (Some status) = Ok 0%num.
Proof.
  intros Hstatus Hx.
  destruct (calculateFederalTax_range status x Hstatus) as (t & -> & _ & Hzero & _).
  by rewrite (Hzero Hx).
Qed.

Lemma calculateFederalTax_zero_below_0_witness :
  calculateFederalTax new_TaxCalculator (lit (-2500)) (Some "headOfHousehold")
  = Ok 0%num.
Proof.
  apply (calculateFederalTax_zero_below_0 "headOfHousehold" (Q2Qc (-2500))).
  - vm_compute. by eexists.
  - by vm_compute.
Defined.

(** X2: for a non-negative taxable income and a filing status of the table,
    [calculateFederalTax] returns a finite tax that is never negative and
    never above the top rate of 37% of the income, up to the half cent the
    final rounding can add. *)
Theorem calculateFederalTax_bounds (status : string) (x : Qc) :
  is_Some (federalBrackets new_TaxCalculator !! status) →
  0 ≤ x →
  ∃ t, calculateFederalTax new_TaxCalculator (Fin x) (Some status) = Ok (Fin t)
       ∧ 0 ≤ t ∧ t ≤ Q2Qc 0.37 * x + Q2Qc 0.005.
Proof.
  intros Hstatus Hx.
  destruct (calculateFederalTax_range status x Hstatus)
    as (t & Ht & Ht0 & _ & Hupper).
  exists t. auto.
Qed.

Lemma calculateFederalTax_bounds_witness :
  ∃ t, calculateFederalTax new_TaxCalculator (lit 250000) (Some "single")
       = Ok (Fin t)
       ∧ 0 ≤ t ∧ t ≤ Q2Qc 0.37 * Q2Qc 250000 + Q2Qc 0.005.
Proof.
  apply (calculateFederalTax_bounds "single" (Q2Qc 250000)).
  - vm_compute. by eexists.
  - by vm_compute.
Defined.

(** The figure [calculateStateTax] returns for a finite income. *)
Lemma calculateStateTax_bounds (x : Qc) (state : option string) :
  ∃ s, calculateStateTax new_TaxCalculator (Fin x) state = Fin s
       ∧ (x ≤ 0 → s ≤ 0)
       ∧ (0 ≤ x → 0 ≤ s ∧ s ≤ Q2Qc 0.123 * x + Q2Qc 0.005).
Proof.
  unfold calculateStateTax.
  destruct (stateTaxRates new_TaxCalculator !! key_of state)
    as [rule|] eqn:Hrule.
  - apply stateTaxRates_within in Hrule.
    destruct rule as [|[| |r]|brackets]; try discriminate.
    + exists 0. split; [done|].
      split; [intros Hx; qc_arith|]. intros Hx. split; qc_arith.
    + cbn in Hrule. eexists. split; [done|].
      split; [intros Hx; qc_arith|]. intros Hx. split; qc_arith.
    + cbn [rule_within] in Hrule.
      apply andb_prop in Hrule as [Hrule _].
      apply andb_prop in Hrule as [Hrule Hrates].
      apply andb_prop in Hrule as [_ Hcont].
      fold (bracket_step (Fin x)). change 0%num with (Fin 0).
      destruct (bracket_fold_upper (Q2Qc 0.123) brackets ltac:(by vm_compute)
                  0 x 0 Hcont Hrates) as (u & -> & Hu0 & Hbelow & Habove).
      destruct (round_cents_bounds u) as (s & Hs & _ & Hround & Hpos).
      rewrite Hs. exists s. split; [done|]. split.
      * intros Hx. rewrite (Hbelow Hx), round_cents_0 in Hs.
        injection Hs as <-. apply Qcle_refl.
      * intros Hx. specialize (Habove Hx). destruct (Hpos Hu0) as [Hs0 _].
        split; [done|]. qc_arith.
  - eexists. split; [done|].
    split; [intros Hx; qc_arith|]. intros Hx. split; qc_arith.
Qed.

(** X3: [calculateStateTax] is monotone in the taxable income for every
    state, listed or not: a higher income never owes less state tax, and a
    non-negative income never owes a negative one.  This covers the
    untaxed, flat and progressive states and the 5% default. *)
Theorem calculateStateTax_monotone (state : option string) (x y : Qc) :
  x ≤ y →
  ∃ sx sy,
    calculateStateTax new_TaxCalculator (Fin x) state = Fin sx
    ∧ calculateStateTax new_TaxCalculator (Fin y) state = Fin sy
    ∧ sx ≤ sy
    ∧ (0 ≤ x → 0 ≤ sx).
Proof.
  intros Hxy.
  destruct (calculateStateTax_bounds x state) as (sx & Hsx & _ & Hpos).
  destruct (calculateStateTax_bounds y state) as (sy & Hsy & _).
  exists sx, sy. do 2 (split; [done|]).
  split; [|by intros Hx; destruct (Hpos Hx)].
  clear Hpos. revert Hsx Hsy. unfold calculateStateTax.
  destruct (stateTaxRates new_TaxCalculator !! key_of state)
    as [rule|] eqn:Hrule.
  - apply stateTaxRates_within in Hrule.
    destruct rule as [|[| |r]|brackets]; try discriminate.
    + intros [= <-] [= <-]. apply Qcle_refl.
    + cbn in Hrule. intros [= <-] [= <-]. qc_arith.
    + cbn [rule_within] in Hrule.
      apply andb_prop in Hrule as [Hrule _].
      apply andb_prop in Hrule as [Hrule _].
      apply andb_prop in Hrule as [Hok _].
      fold (bracket_step (Fin x)). fold (bracket_step (Fin y)).
      change 0%num with (Fin 0).
      destruct (bracket_fold_mono brackets Hok x y 0 0 Hxy (Qcle_refl 0))
        as (ux & uy & -> & -> & Hu).
      destruct (round_cents_mono ux uy Hu) as (cx & cy & -> & -> & Hc).
      by intros [= <-] [= <-].
  - intros [= <-] [= <-]. qc_arith.
Qed.

Lemma calculateStateTax_monotone_witness :
  ∃ sx sy,
    calculateStateTax new_TaxCalculator (lit 66295) (Some "CA") = Fin sx
    ∧ calculateStateTax new_TaxCalculator (lit 66295.5) (Some "CA") = Fin sy
    ∧ sx ≤ sy
    ∧ (0 ≤ Q2Qc 66295 → 0 ≤ sx).
Proof.
  apply (calculateStateTax_monotone (Some "CA") (Q2Qc 66295) (Q2Qc 66295.5)).
  by vm_compute.
Defined.

(** The unrounded amounts behind [calculateFICA]. *)
Lemma calculateFICA_amounts (w : Qc) :
  ∃ a b c,
    socialSecurity (calculateFICA new_TaxCalculator (Fin w)) = round_cents (Fin a)
    ∧ medicare (calculateFICA new_TaxCalculator (Fin w)) = round_cents (Fin b)
    ∧ additionalMedicare (calculateFICA new_TaxCalculator (Fin w))
      = round_cents (Fin c)
    ∧ total (calculateFICA new_TaxCalculator (Fin w))
      = round_cents (Fin (a + b + c))
    ∧ (w ≤ Q2Qc 176100 → a = w * Q2Qc 0.062)
    ∧ (Q2Qc 176100 ≤ w → a = Q2Qc 10918.2)
    ∧ b = w * Q2Qc 0.0145
    ∧ (w ≤ Q2Qc 200000 → c = 0)
    ∧ (Q2Qc 200000 ≤ w → c = (w - Q2Qc 200000) * Q2Qc 0.009).
Proof.
  unfold calculateFICA. cbn -[round_cents].
  destruct (Qc_ltb (Q2Qc 176100) w) eqn:Hbase,
           (Qc_ltb (Q2Qc 200000) w) eqn:Hadd; cbn -[round_cents];
    do 3 eexists; do 4 (split; [reflexivity|]);
    (split; [intros ?; qc_arith|]); (split; [intros ?; qc_arith|]);
    (split; [reflexivity|]); (split; intros ?; qc_arith).
Qed.

(** X4: the thresholds of [calculateFICA].  The Social Security part never
    exceeds 10918.20, the tax on the wage base of 176100, and equals it for
    all wages at or above the base; the additional Medicare part is 0 for
    wages up to 200000. *)
Theorem calculateFICA_thresholds (w : Qc) :
  ∃ ss,
    socialSecurity (calculateFICA new_TaxCalculator (Fin w)) = Fin ss
    ∧ ss ≤ Q2Qc 10918.2
    ∧ (Q2Qc 176100 ≤ w → ss = Q2Qc 10918.2)
    ∧ (w ≤ Q2Qc 200000 →
       additionalMedicare (calculateFICA new_TaxCalculator (Fin w)) = 0%num).
Proof.
  destruct (calculateFICA_amounts w)
    as (a & b & c & -> & _ & -> & _ & Hbelow & Habove & _ & Hnone & _).
  assert (Hcap : round_cents (Fin (Q2Qc 10918.2)) = Fin (Q2Qc 10918.2))
    by compute_done.
  assert (Ha : a ≤ Q2Qc 10918.2).
  { destruct (Qclt_le_dec w (Q2Qc 176100)) as [Hw|Hw].
    - rewrite (Hbelow (Qclt_le_weak _ _ Hw)). qc_arith.
    - rewrite (Habove Hw). apply Qcle_refl. }
  destruct (round_cents_mono a _ Ha) as (ss & cap & Hss & Hcap' & Hle).
  rewrite Hcap in Hcap'. injection Hcap' as <-.
  exists ss. split; [done|]. split; [done|]. split.
  - intros Hw. rewrite (Habove Hw), Hcap in Hss. by injection Hss.
  - intros Hw. rewrite (Hnone Hw). apply round_cents_0.
Qed.


(** The total of [calculateFICA] for non-negative wages. *)
Lemma calculateFICA_total_bounds (w : Qc) :
  0 ≤ w →
  ∃ k, total (calculateFICA new_TaxCalculator (Fin w)) = Fin k
       ∧ 0 ≤ k
       ∧ k ≤ Q2Qc 0.171 * w
       ∧ k ≤ Q2Qc 0.0855 * w + Q2Qc 0.005.
Proof.
  intros Hw.
  destruct (calculateFICA_amounts w)
    as (a & b & c & _ & _ & _ & -> & Ha1 & Ha2 & -> & Hc1 & Hc2).
  assert (Hbounds : 0 ≤ a + w * Q2Qc 0.0145 + c
                    ∧ a + w * Q2Qc 0.0145 + c ≤ Q2Qc 0.0855 * w).
  { destruct (Qclt_le_dec w (Q2Qc 176100)) as [Hb|Hb];
      [apply Qclt_le_weak in Hb; rewrite (Ha1 Hb)|rewrite (Ha2 Hb)];
      (destruct (Qclt_le_dec w (Q2Qc 200000)) as [Hc|Hc];
       [apply Qclt_le_weak in Hc; rewrite (Hc1 Hc)|rewrite (Hc2 Hc)]);
      split; qc_arith. }
  destruct Hbounds as [Hu0 Hu].
  destruct (round_cents_bounds (a + w * Q2Qc 0.0145 + c))
    as (k & -> & _ & Hround & Hpos).
  destruct (Hpos Hu0) as [Hk0 Hk2].
  exists k. split; [done|]. split; [done|]. split; qc_arith.
Qed.

(** What [calculateAllTaxes] returns for finite amounts and a filing status
    of the table. *)
Lemma calculateAllTaxes_figures (g p : Qc) (status : string)
    (state : option string) :
  is_Some (federalBrackets new_TaxCalculator !! status) →
  ∃ d t f s k m,
    getStandardDeduction new_TaxCalculator (Some status) = Fin d
    ∧ Num.max 0%num (Fin (g - p - d)) = Fin t
    ∧ calculateFederalTax new_TaxCalculator (Fin t) (Some status) = Ok (Fin f)
    ∧ calculateStateTax new_TaxCalculator (Fin t) state = Fin s
    ∧ total (calculateFICA new_TaxCalculator (Fin (g - p))) = Fin k
    ∧ calculateAllTaxes new_TaxCalculator (Fin g) (Fin p) (Some status) state
      = Ok {| grossIncome := Fin g;
              preTexDeductions := Fin p;
              standardDeduction := Fin d;
              taxableIncome := Fin t;
              federalTax := Fin f;
              stateTax := Fin s;
              fica := calculateFICA new_TaxCalculator (Fin (g - p));
              totalTax := Fin (f + s + k);
              netIncome := Fin (g - p - (f + s + k));
              effectiveRate := calculateEffectiveRate (Fin (f + s + k)) (Fin g);
              marginalRate := m |}.
Proof.
  intros Hstatus.
  destruct (getStandardDeduction_Fin (Some status)) as [d Hd].
  destruct (max_0_Fin (g - p - d)) as [t Ht].
  destruct (calculateFederalTax_sum status t Hstatus) as (_ & f & Hf & _).
  destruct (calculateStateTax_Fin t state) as [s Hs].
  destruct (calculateFICA_total_Fin (g - p)) as [k Hk].
  destruct Hstatus as [brackets Hb].
  exists d, t, f, s, k. eexists.
  do 5 (split; [done|]).
  unfold calculateAllTaxes. rewrite Hd.
  change (Fin g - Fin p - Fin d)%num with (Fin (g - p - d)).
  change (Fin g - Fin p)%num with (Fin (g - p)).
  rewrite Ht, Hf, Hs. cbn [mbind js_bind].
  unfold calculateMarginalRate. cbn [key_of]. rewrite Hb.
  cbn [mbind js_bind]. rewrite Hk. reflexivity.
Qed.

(** X6: when gross income less pre-tax deductions does not exceed the
    standard deduction, [calculateAllTaxes] reports a taxable income of 0,
    no federal and no state tax, and a total tax that is the FICA total
    alone: FICA is charged on the wages before the standard deduction. *)
Theorem calculateAllTaxes_below_deduction (g p d : Qc) (status : string)
    (state : option string) :
  is_Some (federalBrackets new_TaxCalculator !! status) →
  getStandardDeduction new_TaxCalculator (Some status) = Fin d →
  g - p ≤ d →
  ∃ r,
    calculateAllTaxes new_TaxCalculator (Fin g) (Fin p) (Some status) state = Ok r
    ∧ taxableIncome r = 0%num
    ∧ federalTax r = 0%num
    ∧ stateTax r = 0%num
    ∧ totalTax r = total (fica r).
Proof.
  intros Hstatus Hd Hle.
  destruct (calculateAllTaxes_figures g p status state Hstatus)
    as (d' & t & f & s & k & m & Hd' & Ht & Hf & Hs & Hk & ->).
  rewrite Hd in Hd'. injection Hd' as <-.
  assert (t = 0) as ->.
  { revert Ht. unfold Num.max, lit. cbn.
    destruct (Qc_ltb _ _) eqn:Hlt; [|by intros [= <-]].
    apply Qc_ltb_lt in Hlt. exfalso. apply (Qclt_not_le _ _ Hlt). qc_arith. }
  destruct (calculateFederalTax_range status 0 Hstatus)
    as (f' & Hf' & _ & Hzero & _).
  rewrite Hf in Hf'. injection Hf' as <-. rewrite (Hzero (Qcle_refl 0)).
  destruct (calculateStateTax_bounds 0 state) as (s' & Hs' & Hneg & Hpos).
  rewrite Hs in Hs'. injection Hs' as <-.
  assert (s = 0) as ->.
  { apply Qcle_antisym; [apply Hneg|apply Hpos]; apply Qcle_refl. }
  eexists. split; [done|].
  cbn [taxableIncome federalTax stateTax totalTax fica]. rewrite Hk.
  do 3 (split; [done|]). f_equal. qc_arith.
Qed.

Lemma calculateAllTaxes_below_deduction_witness :
  ∃ r,
    calculateAllTaxes new_TaxCalculator (lit 40000) (lit 12000)
      (Some "marriedFilingJointly") (Some "NY") = Ok r
    ∧ taxableIncome r = 0%num
    ∧ federalTax r = 0%num
    ∧ stateTax r = 0%num
    ∧ totalTax r = total (fica r).
Proof.
  apply (calculateAllTaxes_below_deduction (Q2Qc 40000) (Q2Qc 12000)
           (Q2Qc 30000) "marriedFilingJointly" (Some "NY")).
  - vm_compute. by eexists.
  - by vm_compute.
  - by vm_compute.
Defined.

(** X7: for deductions between 0 and the gross income,
    [calculateAllTaxes] succeeds with a total tax between 0 and the income
    after deductions, hence a net income that is never negative, and, for a
    positive gross income, an effective rate between 0 and 100 percent. *)
Theorem calculateAllTaxes_net_nonnegative (g p : Qc) (status : string)
    (state : option string) :
  is_Some (federalBrackets new_TaxCalculator !! status) →
  0 ≤ p → p ≤ g →
  ∃ r T n,
    calculateAllTaxes new_TaxCalculator (Fin g) (Fin p) (Some status) state = Ok r
    ∧ totalTax r = Fin T ∧ netIncome r = Fin n
    ∧ 0 ≤ T ∧ T ≤ g - p ∧ 0 ≤ n
    ∧ (0 < g → ∃ e, effectiveRate r = Fin e ∧ 0 ≤ e ∧ e ≤ Q2Qc 100).
Proof.
  intros Hstatus Hp Hpg.
  destruct (calculateAllTaxes_figures g p status state Hstatus)
    as (d & t & f & s & k & m & Hd & Ht & Hf & Hs & Hk & ->).
  assert (Hd15 : Q2Qc 15000 ≤ d).
  { destruct (getStandardDeduction_values (Some status)) as [H|[H|H]];
      rewrite Hd in H; injection H as ->; by vm_compute. }
  assert (Hw : 0 ≤ g - p) by qc_arith.
  destruct (calculateFederalTax_range status t Hstatus)
    as (f' & Hf' & Hf0 & Hfzero & Hfup).
  rewrite Hf in Hf'. injection Hf' as <-.
  destruct (calculateStateTax_bounds t state) as (s' & Hs' & Hsneg & Hspos).
  rewrite Hs in Hs'. injection Hs' as <-.
  destruct (calculateFICA_total_bounds (g - p) Hw)
    as (k' & Hk' & Hk0 & Hk2 & Hkround).
  rewrite Hk in Hk'. injection Hk' as <-.
  assert (Htotal : 0 ≤ f + s + k ∧ f + s + k ≤ g - p).
  { revert Ht. unfold Num.max, lit. cbn.
    destruct (Qc_ltb _ _) eqn:Hlt; intros [= <-].
    - apply Qc_ltb_lt in Hlt.
      assert (Ht0 : 0 ≤ g + - p + - d) by (apply Qclt_le_weak; qc_arith).
      specialize (Hfup Ht0). destruct (Hspos Ht0) as [Hs0 Hsup].
      split; qc_arith.
    - apply Qc_ltb_ge in Hlt.
      specialize (Hfzero (Qcle_refl 0)). subst f.
      assert (s = 0) as ->.
      { apply Qcle_antisym; [apply Hsneg|apply Hspos]; apply Qcle_refl. }
      split; qc_arith. }
  destruct Htotal as [HT0 HTw].
  do 3 eexists. split; [done|]. cbn [totalTax netIncome effectiveRate].
  do 2 (split; [done|]). split; [done|]. split; [done|].
  split; [qc_arith|].
  intros Hg. unfold calculateEffectiveRate, Num.gtb, lit. cbn.
  rewrite (proj2 (Qc_ltb_lt _ _) Hg).
  assert (Hg0 : g ≠ 0) by (intros ->; by apply (Qclt_not_eq _ _ Hg)).
  rewrite (proj2 (Qc_eqb_neq g 0) Hg0).
  eexists. split; [done|].
  set (e := (f + s + k) / g * Q2Qc 100).
  assert (He : e * g = (f + s + k) * Q2Qc 100) by (unfold e; field; done).
  clearbody e. split; qc_arith.
Qed.

Lemma calculateAllTaxes_net_nonnegative_witness :
  ∃ r T n,
    calculateAllTaxes new_TaxCalculator (lit 137000) (lit 25900)
      (Some "marriedFilingJointly") (Some "CA") = Ok r
    ∧ totalTax r = Fin T ∧ netIncome r = Fin n
    ∧ 0 ≤ T ∧ T ≤ Q2Qc 137000 - Q2Qc 25900 ∧ 0 ≤ n
    ∧ (0 < Q2Qc 137000 → ∃ e, effectiveRate r = Fin e ∧ 0 ≤ e ∧ e ≤ Q2Qc 100).
Proof.
  apply (calculateAllTaxes_net_nonnegative (Q2Qc 137000) (Q2Qc 25900)
           "marriedFilingJointly" (Some "CA")).
  - vm_compute. by eexists.
  - by vm_compute.
  - by vm_compute.
Defined.

(** X8: a filing status that is not in the bracket table (and is not a
    property name inherited by every object) makes [calculateFederalTax],
    and with it [calculateAllTaxes], throw the error
    "Invalid filing status: <status>", whatever the amounts and the
    state. *)
Theorem calculateAllTaxes_invalid_status (this : TaxCalculator)
    (grossIncome preTexDeductions : num) (status : string)
    (state : option string) :
  inherited_key status = false →
  federalBrackets this !! status = None →
  calculateFederalTax this grossIncome (Some status)
  = Throw (Error ("Invalid filing status: " ++ status))
  ∧ calculateAllTaxes this grossIncome preTexDeductions (Some status) state
    = Throw (Error ("Invalid filing status: " ++ status)).
Proof.
  intros _ Hnone. unfold calculateAllTaxes, calculateFederalTax.
  cbn [from_option id]. by rewrite Hnone.
Qed.

Lemma calculateAllTaxes_invalid_status_witness :
  calculateFederalTax new_TaxCalculator (lit 80000) (Some "widowed")
  = Throw (Error "Invalid filing status: widowed")
  ∧ calculateAllTaxes new_TaxCalculator (lit 80000) (lit 5000)
      (Some "widowed") (Some "CA")
    = Throw (Error "Invalid filing status: widowed").
Proof.
  apply (calculateAllTaxes_invalid_status new_TaxCalculator (lit 80000)
           (lit 5000) "widowed" (Some "CA")).
  - by vm_compute.
  - by vm_compute.
Defined.

(** X9: the functions disagree on a missing filing status.  With
    [undefined], [calculateFederalTax] falls back to its default "single"
    and returns a tax, while [calculateAllTaxes] throws a TypeError:
    [calculateMarginalRate] iterates over the brackets of the key
    "undefined", which do not exist. *)
Theorem calculateAllTaxes_undefined_status (g p : Qc) (state : option string) :
  calculateFederalTax new_TaxCalculator (Fin g) None
  = calculateFederalTax new_TaxCalculator (Fin g) (Some "single")
  ∧ (∃ t, calculateFederalTax new_TaxCalculator (Fin g) None = Ok (Fin t))
  ∧ ∃ msg, calculateAllTaxes new_TaxCalculator (Fin g) (Fin p) None state
           = Throw (TypeError msg).
Proof.
  assert (Hsingle : is_Some (federalBrackets new_TaxCalculator !! "single"))
    by (vm_compute; by eexists).
  split; [done|]. split.
  - destruct (calculateFederalTax_range "single" g Hsingle) as (t & Ht & _).
    by exists t.
  - unfold calculateAllTaxes.
    destruct (getStandardDeduction_Fin None) as [d ->].
    destruct (max_0_Fin (g - p - d)) as [t Ht].
    change (Fin g - Fin p - Fin d)%num with (Fin (g - p - d)). rewrite Ht.
    destruct (calculateFederalTax_range "single" t Hsingle) as (f & Hf & _).
    change (calculateFederalTax new_TaxCalculator (Fin t) None)
      with (calculateFederalTax new_TaxCalculator (Fin t) (Some "single")).
    rewrite Hf. cbn [mbind js_bind].
    unfold calculateMarginalRate.
    replace (federalBrackets new_TaxCalculator !! key_of None)
      with (@None (list Bracket)) by (by vm_compute).
    by eexists.
Qed.

(** The loops of [calculateMarginalRate]: the rate of the last bracket whose
    lower bound the income exceeds. *)
Lemma marginal_fold_mono (rmax : Qc) (bs : list Bracket) :
  ∀ (lo x y rx ry : Qc),
    rates_ascending lo bs = true → rates_within rmax bs = true →
    x ≤ y → rx ≤ ry → rx ≤ lo → ry ≤ rmax →
    ∃ tx ty,
      foldl (fun rate bracket =>
               if Num.gtb (Fin x) (b_min bracket) then b_rate bracket else rate)
            (Fin rx) bs = Fin tx
      ∧ foldl (fun rate bracket =>
                 if Num.gtb (Fin y) (b_min bracket) then b_rate bracket else rate)
              (Fin ry) bs = Fin ty
      ∧ rx ≤ tx ∧ tx ≤ ty ∧ ty ≤ rmax.
Proof.
  induction bs as [|b bs IH]; intros lo x y rx ry Hasc Hin Hxy Hr Hlo Hmax.
  - exists rx, ry. cbn. do 2 (split; [done|]). split; [apply Qcle_refl|done].
  - destruct b as [[| |m] hi [| |r]]; try discriminate.
    cbn [rates_ascending b_min b_rate] in Hasc.
    cbn [rates_within forallb b_rate] in Hin.
    apply andb_prop in Hasc as [Hlor Hasc].
    apply andb_prop in Hin as [Hr01 Hin]. fold (rates_within rmax bs) in Hin.
    cbn [foldl].
    cbn [b_min b_rate].
    change (Num.gtb (Fin x) (Fin m)) with (Qc_ltb m x).
    change (Num.gtb (Fin y) (Fin m)) with (Qc_ltb m y).
    qc_hyps.
    destruct (Qc_ltb m x) eqn:Hx, (Qc_ltb m y) eqn:Hy.
    + destruct (IH r x y r r Hasc Hin Hxy (Qcle_refl r) (Qcle_refl r))
        as (tx & ty & -> & -> & H1 & H2 & H3); [qc_arith|].
      exists tx, ty. do 2 (split; [done|]). split; [qc_arith|done].
    + exfalso. qc_hyps. apply (Qclt_not_le _ _ Hx). qc_arith.
    + destruct (IH r x y rx r Hasc Hin Hxy) as (tx & ty & -> & -> & H1 & H2 & H3);
        [qc_arith..|].
      by exists tx, ty.
    + destruct (IH r x y rx ry Hasc Hin Hxy Hr) as (tx & ty & -> & -> & H1 & H2 & H3);
        [qc_arith..|].
      by exists tx, ty.
Qed.

(** X10: [calculateMarginalRate] is monotone in the taxable income: for a
    filing status of the table and any state, a higher income never has a
    lower marginal rate, and the rate stays between 0 and 49.3 percent
    (37% federal plus the top state rate of 12.3%). *)
Theorem calculateMarginalRate_monotone (status : string)
    (state : option string) (x y : Qc) :
  is_Some (federalBrackets new_TaxCalculator !! status) →
  x ≤ y →
  ∃ mx my,
    calculateMarginalRate new_TaxCalculator (Fin x) (Some status) state
    = Ok (Fin mx)
    ∧ calculateMarginalRate new_TaxCalculator (Fin y) (Some status) state
      = Ok (Fin my)
    ∧ 0 ≤ mx ∧ mx ≤ my ∧ my ≤ Q2Qc 49.3.
Proof.
  intros [brackets Hb] Hxy. unfold calculateMarginalRate.
  cbn [key_of]. rewrite Hb.
  destruct (federalBrackets_within _ _ Hb) as (_ & Hin & Hasc).
  change 0%num with (Fin 0).
  destruct (marginal_fold_mono (Q2Qc 0.37) brackets 0 x y 0 0 Hasc Hin Hxy)
    as (fx & fy & -> & -> & Hf0 & Hfxy & Hfmax); [by vm_compute..|].
  assert (Hstate : ∃ sx sy,
    match stateTaxRates new_TaxCalculator !! key_of state with
    | Some (RuleFlat rate) => rate
    | Some (RuleProgressive brackets) =>
        foldl (fun rate bracket =>
                 if Num.gtb (Fin x) (b_min bracket) then b_rate bracket else rate)
              (Fin 0) brackets
    | _ => Fin 0
    end = Fin sx
    ∧ match stateTaxRates new_TaxCalculator !! key_of state with
      | Some (RuleFlat rate) => rate
      | Some (RuleProgressive brackets) =>
          foldl (fun rate bracket =>
                   if Num.gtb (Fin y) (b_min bracket) then b_rate bracket else rate)
                (Fin 0) brackets
      | _ => Fin 0
      end = Fin sy
    ∧ 0 ≤ sx ∧ sx ≤ sy ∧ sy ≤ Q2Qc 0.123).
  { destruct (stateTaxRates new_TaxCalculator !! key_of state)
      as [rule|] eqn:Hrule; [|exists 0, 0; by vm_compute].
    apply stateTaxRates_within in Hrule.
    destruct rule as [|[| |r]|sbrackets]; try discriminate.
    - exists 0, 0; by vm_compute.
    - cbn in Hrule. exists r, r. do 2 (split; [done|]).
      qc_hyps. split; [done|]. split; [apply Qcle_refl|done].
    - cbn [rule_within] in Hrule.
      apply andb_prop in Hrule as [Hrule Hsasc].
      apply andb_prop in Hrule as [_ Hsin].
      destruct (marginal_fold_mono (Q2Qc 0.123) sbrackets 0 x y 0 0 Hsasc Hsin Hxy)
        as (sx & sy & -> & -> & ?); [by vm_compute..|].
      by exists sx, sy. }
  destruct Hstate as (sx & sy & Hsx & Hsy & Hs0 & Hsxy & Hsmax).
  match goal with
  | |- context [Ok ((Fin fx + ?e) * lit 100)%num] => change e with
      (match stateTaxRates new_TaxCalculator !! key_of state with
       | Some (RuleFlat rate) => rate
       | Some (RuleProgressive brackets) =>
           foldl (fun rate bracket =>
                    if Num.gtb (Fin x) (b_min bracket) then b_rate bracket else rate)
                 (Fin 0) brackets
       | _ => Fin 0
       end)
  end.
  rewrite Hsx.
  match goal with
  | |- context [Ok ((Fin fy + ?e) * lit 100)%num] => change e with
      (match stateTaxRates new_TaxCalculator !! key_of state with
       | Some (RuleFlat rate) => rate
       | Some (RuleProgressive brackets) =>
           foldl (fun rate bracket =>
                    if Num.gtb (Fin y) (b_min bracket) then b_rate bracket else rate)
                 (Fin 0) brackets
       | _ => Fin 0
       end)
  end.
  rewrite Hsy.
  do 2 eexists. do 2 (split; [reflexivity|]). split; [|split]; qc_arith.
Qed.

Lemma calculateMarginalRate_monotone_witness :
  ∃ mx my,
    calculateMarginalRate new_TaxCalculator (lit 46650) (Some "single")
      (Some "NY") = Ok (Fin mx)
    ∧ calculateMarginalRate new_TaxCalculator (lit 46651) (Some "single")
        (Some "NY") = Ok (Fin my)
    ∧ 0 ≤ mx ∧ mx ≤ my ∧ my ≤ Q2Qc 49.3.
Proof.
  apply (calculateMarginalRate_monotone "single" (Some "NY")
           (Q2Qc 46650) (Q2Qc 46651)).
  - vm_compute. by eexists.
  - by vm_compute.
Defined.

(** X11: [getStandardDeduction] always answers with one of the three
    amounts of the table, and a filing status the table does not list
    (other than an inherited property name) gets the deduction 15000 of
    "single". *)
Theorem getStandardDeduction_fallback (filingStatus : option string) :
  inherited_key (key_of filingStatus) = false →
  (getStandardDeduction new_TaxCalculator filingStatus = lit 15000
   ∨ getStandardDeduction new_TaxCalculator filingStatus = lit 22500
   ∨ getStandardDeduction new_TaxCalculator filingStatus = lit 30000)
  ∧ (standardDeductions new_TaxCalculator !! key_of filingStatus = None →
     getStandardDeduction new_TaxCalculator filingStatus = lit 15000).
Proof.
  intros _. split; [apply getStandardDeduction_values|].
  intros Hnone. unfold getStandardDeduction. rewrite Hnone. by vm_compute.
Qed.

Lemma getStandardDeduction_fallback_witness :
  (getStandardDeduction new_TaxCalculator (Some "widowed") = lit 15000
   ∨ getStandardDeduction new_TaxCalculator (Some "widowed") = lit 22500
   ∨ getStandardDeduction new_TaxCalculator (Some "widowed") = lit 30000)
  ∧ (standardDeductions new_TaxCalculator !! key_of (Some "widowed") = None →
     getStandardDeduction new_TaxCalculator (Some "widowed") = lit 15000).
Proof. apply (getStandardDeduction_fallback (Some "widowed")). by vm_compute. Defined.

End TaxEngineBounds.

(** ** Expense categorizer, continued *)

Section ExpenseItems.

Local Open Scope Qc_scope.

(** The traversal adds the items one after the other. *)
Lemma traverseCategory_items (person : option string) (cat : ExpenseNode) :
  ∀ total,
    traverseCategory person cat total
    = foldl (fun total item => processItem person item.1 item.2 total)
            total (items_of cat).
Proof.
  induction cat as [| |children IH] using ExpenseNode_children_ind;
    intros total; [done..|].
  cbn [traverseCategory items_of]. revert total.
  induction IH as [|[key child] rest IHchild _ IHrest]; intros total; [done|].
  rewrite foldl_app, <- IHrest.
  destruct child as [|amount assignedTo|grandchildren]; [done..|].
  cbn [snd] in IHchild. by rewrite IHchild.
Qed.

Lemma processItem_Fin (person : option string) (a t : Qc)
    (assignedTo : option string) :
  processItem person (Fin a) assignedTo (Fin t)
  = Fin (t + contribution person a assignedTo).
Proof.
  unfold processItem, contribution. cbn [Num.truthy].
  destruct (Qc_eqb a 0); cbn [negb].
  { f_equal. ring. }
  destruct (truthy_string person); cbn [negb andb]; [|done].
  destruct (bool_decide (assignedTo = person)); [done|].
  destruct (bool_decide (assignedTo = Some "shared")); cbn [andb].
  - done.
  - f_equal. ring.
Qed.

Lemma foldl_processItem_Fin (person : option string)
    (items : list (num * option string)) :
  finite_items items = true →
  ∀ t, foldl (fun total item => processItem person item.1 item.2 total)
             (Fin t) items
       = Fin (t + contributions person items).
Proof.
  induction items as [|[amount assignedTo] items IH]; intros Hfin t.
  - unfold contributions. cbn [foldl foldr]. f_equal. ring.
  - cbn in Hfin. destruct amount as [| |a]; try discriminate.
    cbn [foldl fst snd]. rewrite processItem_Fin, IH by done.
    unfold contributions. cbn [foldr fst snd]. f_equal. ring.
Qed.

Lemma calculateCategoryTotal_Fin (cat : ExpenseNode) (person : option string) :
  finite_items (items_of cat) = true →
  calculateCategoryTotal (Some cat) person
  = Fin (contributions person (items_of cat)).
Proof.
  intros Hfin. unfold calculateCategoryTotal.
  rewrite traverseCategory_items. change 0%num with (Fin 0).
  rewrite foldl_processItem_Fin by done. f_equal. ring.
Qed.

Lemma contributions_unfiltered (items : list (num * option string)) :
  contributions None items = sum_amounts items.
Proof.
  induction items as [|[amount assignedTo] items IH]; [done|].
  unfold contributions, sum_amounts in *. cbn [foldr fst snd].
  destruct amount as [| |a]; [done..|]. rewrite IH. f_equal.
  unfold contribution. cbn [truthy_string negb].
  destruct (Qc_eqb a 0) eqn:Ha; [|done]. by apply Qc_eqb_eq in Ha.
Qed.

(** X12: without a person filter, [calculateCategoryTotal] is the sum of
    the amounts of all items of the tree, at any depth of nesting and
    whoever they are assigned to. *)
Theorem calculateCategoryTotal_sum_of_items (cat : ExpenseNode) :
  finite_items (items_of cat) = true →
  calculateCategoryTotal (Some cat) None = Fin (sum_amounts (items_of cat)).
Proof.
  intros Hfin. rewrite calculateCategoryTotal_Fin by done.
  by rewrite contributions_unfiltered.
Qed.

Lemma truthy_string_Some (p : string) : p ≠ "" → truthy_string (Some p) = true.
Proof. intros Hp. cbn. apply negb_true_iff. by apply String.eqb_neq. Qed.

Lemma contributions_split (p1 p2 : string)
    (items : list (num * option string)) :
  p1 ≠ "" → p2 ≠ "" → p1 ≠ "shared" → p2 ≠ "shared" → p1 ≠ p2 →
  assigned_within p1 p2 items = true →
  contributions (Some p1) items + contributions (Some p2) items
  = contributions None items.
Proof.
  intros Hp1 Hp2 Hs1 Hs2 Hne.
  induction items as [|[amount assignedTo] items IH]; intros Hassigned.
  - unfold contributions. cbn. ring.
  - cbn [assigned_within forallb fst snd] in Hassigned.
    apply andb_prop in Hassigned as [Hitem Hrest].
    specialize (IH Hrest). unfold contributions in *. cbn [foldr fst snd].
    destruct amount as [| |a]; [done..|].
    rewrite <- IH.
    assert (Hitem' : contribution (Some p1) a assignedTo
                     + contribution (Some p2) a assignedTo
                     = contribution None a assignedTo).
    { unfold contribution.
      rewrite !truthy_string_Some by done. cbn [truthy_string negb].
      destruct (Qc_eqb a 0); [ring|].
      apply orb_prop in Hitem as [Hitem|Hitem];
        [apply orb_prop in Hitem as [Hitem|Hitem]|];
        apply bool_decide_eq_true in Hitem as ->.
      - rewrite bool_decide_eq_true_2 by done.
        rewrite !bool_decide_eq_false_2 by congruence. ring.
      - rewrite (bool_decide_eq_false_2 (Some p2 = Some p1)) by congruence.
        rewrite (bool_decide_eq_false_2 (Some p2 = Some "shared")) by congruence.
        rewrite bool_decide_eq_true_2 by done. ring.
      - rewrite (bool_decide_eq_false_2 (Some "shared" = Some p1)) by congruence.
        rewrite (bool_decide_eq_false_2 (Some "shared" = Some p2)) by congruence.
        rewrite bool_decide_eq_true_2 by done.
        unfold Qcdiv. change (/ Q2Qc 2) with (Q2Qc (1 # 2)). qc_arith. }
    rewrite <- Hitem'. ring.
Qed.


Lemma calculateCategoryTotal_sum_of_items_witness :
  let cat :=
    Category
      [ ("housing", Category
          [ ("rent", Item (lit 3500) (Some "shared"));
            ("insurance", Item (lit 150) (Some "person1")) ]);
        ("note", Primitive);
        ("carPayment", Item (lit 450) (Some "person2")) ] in
  calculateCategoryTotal (Some cat) None = Fin (sum_amounts (items_of cat)).
Proof.
  cbv zeta. apply calculateCategoryTotal_sum_of_items. reflexivity.
Defined.


End ExpenseItems.

(** ** Household calculator, continued *)

Section HouseholdFigures.

Local Open Scope Qc_scope.

Lemma calculateCategoryTotal_items (category : option ExpenseNode)
    (person : option string) :
  finite_items (category_items category) = true →
  calculateCategoryTotal category person
  = Fin (contributions person (category_items category)).
Proof.
  destruct category as [cat|]; intros Hfin.
  - by apply calculateCategoryTotal_Fin.
  - cbn. unfold lit. f_equal; by apply Qc_is_canon.
Qed.

Lemma or_zero_Fin (x : option num) :
  finite_field x = true → ∃ q, or_zero x = Fin q.
Proof.
  destruct x as [[| |q]|]; intros Hx; try discriminate.
  - unfold or_zero, Num.or_else. destruct (Num.truthy (Fin q)); by eexists.
  - by eexists.
Qed.

Lemma deductions_Fin (deductions : list (string * num)) :
  forallb (fun d => match d.2 with Fin _ => true | _ => false end) deductions
  = true →
  ∀ t, ∃ p,
    foldl (fun sum amount => (sum + Num.or_else amount 0)%num) (Fin t)
          (deductions.*2) = Fin p.
Proof.
  induction deductions as [|[key amount] deductions IH]; intros Hfin t.
  - by eexists.
  - cbn in Hfin. apply andb_prop in Hfin as [Ha Hrest].
    destruct amount as [| |a]; try discriminate.
    cbn [fmap list_fmap foldl snd].
    unfold Num.or_else at 2. destruct (Num.truthy (Fin a)); apply (IH Hrest).
Qed.

(** The figures of a person reconcile. *)
Lemma calculatePersonIncome_reconciled (person : option Person)
    (scenario : Scenario) (hh : Household) (loc : Location) (status : string) :
  household scenario = Some hh →
  location hh = Some loc →
  filingStatus hh = Some status →
  is_Some (federalBrackets new_TaxCalculator !! status) →
  from_option person_finite true person = true →
  ∃ c, calculatePersonIncome new_TaxCalculator person scenario = Ok c
       ∧ person_calc_reconciled c
       ∧ pc_totalTax c
         = (pc_federalTax c + pc_stateTax c + pf_total (pc_fica c))%num.
Proof.
  intros Hhh Hloc Hfs Hstatus Hfin.
  destruct person as [person|].
  { cbn in Hfin. unfold person_finite in Hfin.
    apply andb_prop in Hfin as [Hfin Hded].
    apply andb_prop in Hfin as [Hfin Ho].
    apply andb_prop in Hfin as [Hs Hb].
    destruct (or_zero_Fin _ Hs) as [s Hs'].
    destruct (or_zero_Fin _ Hb) as [b Hb'].
    destruct (or_zero_Fin _ Ho) as [o Ho'].
    assert (∃ p, match person_preTexDeductions person with
                 | Some deductions =>
                     foldl (fun sum amount => (sum + Num.or_else amount 0)%num)
                           0%num (deductions.*2)
                 | None => 0%num
                 end = Fin p) as [p Hp].
    { destruct (person_preTexDeductions person) as [ds|]; [|by eexists].
      apply (deductions_Fin ds Hded). }
    destruct (calculateAllTaxes_figures (s + b + o) p status (state loc) Hstatus)
      as (d & t & f & st & k & m & _ & _ & _ & _ & Hk & Hall).
    unfold calculatePersonIncome. rewrite Hp, Hs', Hb', Ho', Hhh.
    cbn [prop_of mbind js_bind]. rewrite Hloc. cbn [prop_of mbind js_bind].
    rewrite Hfs. change (Fin s + Fin b + Fin o)%num with (Fin (s + b + o)).
    rewrite Hall. cbn [mbind js_bind]. eexists. split; [reflexivity|].
    cbn [pc_totalTax pc_federalTax pc_stateTax pc_fica pf_total
         totalTax federalTax stateTax fica]. rewrite Hk. split; [|done].
    exists (s + b + o), p, (f + st + k), (s + b + o - p - (f + st + k)).
    cbn [pc_gross pc_preTexDeductions pc_totalTax pc_netAnnual pc_monthlyNet
         totalTax netIncome].
    do 4 (split; [done|]). split; [ring|].
    unfold lit. rewrite div_Fin; [done|]. by apply Qc_eqb_neq. }
  eexists. split; [reflexivity|]. split.
  - exists 0, 0, 0, 0.
    cbn [getEmptyPersonCalculation pc_gross pc_preTexDeductions pc_totalTax
         pc_netAnnual pc_monthlyNet].
    unfold lit.
    do 4 (split; [f_equal; by apply Qc_is_canon|]).
    split; [ring|]. f_equal; by apply Qc_is_canon.
  - cbn. unfold lit. f_equal; by apply Qc_is_canon.
Qed.

Lemma finite_items_app (xs ys : list (num * option string)) :
  finite_items (xs ++ ys) = finite_items xs && finite_items ys.
Proof. apply forallb_app. Qed.

Lemma assigned_within_app (p1 p2 : string)
    (xs ys : list (num * option string)) :
  assigned_within p1 p2 (xs ++ ys)
  = assigned_within p1 p2 xs && assigned_within p1 p2 ys.
Proof. apply forallb_app. Qed.

Lemma contributions_app (person : option string)
    (xs ys : list (num * option string)) :
  contributions person (xs ++ ys)
  = contributions person xs + contributions person ys.
Proof.
  induction xs as [|[amount assignedTo] xs IH].
  - unfold contributions at 2. cbn [foldr app]. ring.
  - unfold contributions in *. cbn [foldr app fst snd].
    destruct amount as [| |a]; [done..|]. rewrite IH. ring.
Qed.

(** The four category totals and their sum, for a person filter. *)
Lemma category_totals (categories : RamitCategories)
    (person : option string) :
  finite_items (all_items categories) = true →
  ∃ f i s g,
    calculateCategoryTotal (fixedCosts categories) person = Fin f
    ∧ calculateCategoryTotal (investments categories) person = Fin i
    ∧ calculateCategoryTotal (savings categories) person = Fin s
    ∧ calculateCategoryTotal (guiltFreeSpending categories) person = Fin g
    ∧ f + i + s + g = contributions person (all_items categories).
Proof.
  unfold all_items. rewrite !finite_items_app, !andb_true_iff.
  intros (Hf & Hi & Hs & Hg).
  do 4 eexists.
  rewrite !calculateCategoryTotal_items by done.
  do 4 (split; [reflexivity|]).
  rewrite !contributions_app. ring.
Qed.

(** What a successful [calculateScenario] is made of. *)
Lemma calculateScenario_inv (taxCalc : TaxCalculator) (scenario : Scenario)
    (r : ScenarioResult) :
  calculateScenario taxCalc (Some scenario) = Ok (Some r) →
  ∃ inc ex categories,
    income scenario = Some inc
    ∧ expenses scenario = Some ex
    ∧ ramitCategories ex = Some categories
    ∧ calculatePersonIncome taxCalc (person1 inc) scenario = Ok (res_person1 r)
    ∧ calculatePersonIncome taxCalc (person2 inc) scenario = Ok (res_person2 r)
    ∧ calculateHouseholdExpenses (Some ex) = Ok (res_expenses r)
    ∧ calculateRamitBreakdown (Some ex)
        (pc_netAnnual (res_person1 r) + pc_netAnnual (res_person2 r))%num
      = Ok (res_ramitBreakdown r)
    ∧ res_household r
      = {| hh_grossIncome :=
             (pc_gross (res_person1 r) + pc_gross (res_person2 r))%num;
           hh_netIncome :=
             (pc_netAnnual (res_person1 r) + pc_netAnnual (res_person2 r))%num;
           hh_monthlyNetIncome :=
             ((pc_netAnnual (res_person1 r) + pc_netAnnual (res_person2 r))
              / lit 12)%num;
           hh_totalTaxes :=
             (pc_totalTax (res_person1 r) + pc_totalTax (res_person2 r))%num;
           hh_effectiveRate :=
             ((pc_totalTax (res_person1 r) + pc_totalTax (res_person2 r))
              / (pc_gross (res_person1 r) + pc_gross (res_person2 r))
              * lit 100)%num |}
    ∧ res_summary r
      = calculateSummaryMetrics (res_person1 r) (res_person2 r)
          (res_expenses r).
Proof.
  unfold calculateScenario.
  destruct (income scenario) as [inc|]; [cbn [prop_of mbind js_bind]|done].
  destruct (calculatePersonIncome taxCalc (person1 inc) scenario)
    as [person1Calc|] eqn:H1; [cbn [mbind js_bind]|done].
  destruct (calculatePersonIncome taxCalc (person2 inc) scenario)
    as [person2Calc|] eqn:H2; [cbn [mbind js_bind]|done].
  destruct (expenses scenario) as [ex|]; [|done].
  destruct (ramitCategories ex) as [categories|] eqn:Hcats;
    [|unfold calculateHouseholdExpenses; cbn [prop_of mbind js_bind];
      by rewrite Hcats].
  destruct (calculateHouseholdExpenses (Some ex))
    as [householdExpenses|] eqn:Hhe; [cbn [mbind js_bind]|done].
  destruct (calculateRamitBreakdown (Some ex) _)
    as [ramitBreakdown|] eqn:Hrb; [cbn [mbind js_bind]|done].
  intros [= <-]. exists inc, ex, categories.
  cbn [res_person1 res_person2 res_household res_expenses res_ramitBreakdown
       res_summary].
  rewrite Hrb. do 8 (split; [done|]). done.
Qed.

Lemma scenario_well_formed_parts (scenario : Scenario) :
  scenario_well_formed new_TaxCalculator scenario = true →
  ∃ hh loc status inc ex categories,
    household scenario = Some hh
    ∧ location hh = Some loc
    ∧ filingStatus hh = Some status
    ∧ is_Some (federalBrackets new_TaxCalculator !! status)
    ∧ income scenario = Some inc
    ∧ expenses scenario = Some ex
    ∧ ramitCategories ex = Some categories
    ∧ from_option person_finite true (person1 inc) = true
    ∧ from_option person_finite true (person2 inc) = true.
Proof.
  unfold scenario_well_formed.
  destruct (household scenario) as [hh|]; [|done].
  destruct (income scenario) as [inc|]; [|done].
  destruct (expenses scenario) as [ex|]; [|done].
  destruct (location hh) as [loc|] eqn:Hloc; [|done].
  destruct (filingStatus hh) as [status|] eqn:Hfs; [|done].
  destruct (ramitCategories ex) as [categories|] eqn:Hcats; [|done].
  rewrite !andb_true_iff, bool_decide_eq_true. intros [[Hstatus H1] H2].
  exists hh, loc, status, inc, ex, categories. by do 8 (split; [done|]).
Qed.





End HouseholdFigures.

(** ** Budget figures and person views *)

Section HouseholdBudget.

Local Open Scope Qc_scope.

Lemma twelve_neq_0 : Q2Qc 12 ≠ 0.
Proof. by apply Qc_eqb_neq. Qed.

Lemma scenario_items_eq (scenario : Scenario) (ex : Expenses)
    (categories : RamitCategories) :
  expenses scenario = Some ex →
  ramitCategories ex = Some categories →
  scenario_items scenario = all_items categories.
Proof. intros Hex Hcats. unfold scenario_items. by rewrite Hex, Hcats. Qed.

(** The expense figures of a result with finite amounts. *)
Lemma calculateHouseholdExpenses_figures (ex : Expenses)
    (categories : RamitCategories) (he : HouseholdExpenses) :
  ramitCategories ex = Some categories →
  finite_items (all_items categories) = true →
  calculateHouseholdExpenses (Some ex) = Ok he →
  ∃ f i s g,
    calculateCategoryTotal (fixedCosts categories) None = Fin f
    ∧ calculateCategoryTotal (investments categories) None = Fin i
    ∧ calculateCategoryTotal (savings categories) None = Fin s
    ∧ calculateCategoryTotal (guiltFreeSpending categories) None = Fin g
    ∧ f + i + s + g = contributions None (all_items categories)
    ∧ he_total he = Fin (f + i + s + g)
    ∧ he_annual he = Fin ((f + i + s + g) * Q2Qc 12).
Proof.
  intros Hcats Hfin.
  destruct (category_totals categories None Hfin)
    as (f & i & s & g & Hf & Hi & Hs & Hg & Hsum).
  unfold calculateHouseholdExpenses. cbn [prop_of mbind js_bind].
  rewrite Hcats. cbn [prop_of mbind js_bind].
  cbn [eb_fixedCosts eb_investments eb_savings eb_guiltFreeSpending].
  rewrite Hf, Hi, Hs, Hg. intros [= <-]. exists f, i, s, g.
  do 5 (split; [done|]). cbn [he_total he_annual]. unfold lit.
  cbn [Num.add Num.mul]. split; f_equal; ring.
Qed.







(** The monthly net of a person calculation is a twelfth of the annual. *)
Lemma calculatePersonIncome_monthlyNet (taxCalc : TaxCalculator)
    (person : option Person) (scenario : Scenario) (c : PersonCalc) :
  calculatePersonIncome taxCalc person scenario = Ok c →
  pc_monthlyNet c = (pc_netAnnual c / lit 12)%num.
Proof.
  unfold calculatePersonIncome. destruct person as [person|].
  - destruct (household scenario) as [hh|]; [cbn [prop_of mbind js_bind]|done].
    destruct (location hh) as [loc|]; [cbn [prop_of mbind js_bind]|done].
    destruct (calculateAllTaxes _ _ _ _ _) as [taxResult|];
      [cbn [mbind js_bind]|done].
    by intros [= <-].
  - intros [= <-]. cbn. unfold lit. f_equal. by apply Qc_is_canon.
Qed.



(** X20: a [setScenario] that throws leaves the calculator inconsistent:
    the new scenario is stored as current while the calculations remain
    those of the previous scenario.  A following [calculatePersonView]
    then combines the income of the previous scenario with the expenses of
    the new one, or throws a TypeError when the new scenario has no
    expenses. *)
Theorem setScenario_failure_leaves_stale_calculations
    (this0 this1 this2 : HouseholdCalculator) (s1 s2 : Scenario)
    (r1 : ScenarioResult) (e : error) :
  setScenario (Some s1) this0 = (Ok (Some r1), this1) →
  setScenario (Some s2) this1 = (Throw e, this2) →
  hc_currentScenario this2 = Some s2
  ∧ hc_calculations this2 = CalculationsOf r1
  ∧ (∀ ex categories,
       expenses s2 = Some ex →
       ramitCategories ex = Some categories →
       ∃ v, calculatePersonView "person1" this2 = Ok (Some v)
            ∧ pv_income v = EntryPerson (res_person1 r1)
            ∧ eb_fixedCosts (pv_expenses v)
              = calculateCategoryTotal (fixedCosts categories)
                  (Some "person1"))
  ∧ (expenses s2 = None →
     ∃ msg, calculatePersonView "person1" this2 = Throw (TypeError msg)).
Proof.
  intros Hset1 Hset2.
  unfold setScenario in Hset1. cbn [hc_taxCalc hc_currentScenario] in Hset1.
  destruct (calculateScenario (hc_taxCalc this0) (Some s1))
    as [[r|]|]; try discriminate.
  injection Hset1 as -> <-.
  unfold setScenario in Hset2.
  cbn [hc_taxCalc hc_currentScenario hc_calculations] in Hset2.
  destruct (calculateScenario (hc_taxCalc this0) (Some s2))
    as [result|e']; try discriminate.
  injection Hset2 as -> <-.
  cbn [hc_currentScenario hc_calculations].
  do 2 (split; [done|]).
  unfold calculatePersonView.
  cbn [hc_calculations hc_currentScenario result_entry String.eqb Ascii.eqb
       Bool.eqb prop_of mbind js_bind].
  split.
  - intros ex categories Hex Hcats. rewrite Hex. cbn [prop_of mbind js_bind].
    rewrite Hcats. cbn [prop_of mbind js_bind]. by eexists.
  - intros Hex. rewrite Hex. cbn [prop_of mbind js_bind]. by eexists.
Qed.

Lemma setScenario_failure_leaves_stale_calculations_witness :
  ∃ r1 this1 e this2,
    setScenario (Some (createBaselineScenario "2025-01-01T00:00:00.000Z"))
      (new_HouseholdCalculator new_TaxCalculator) = (Ok (Some r1), this1)
    ∧ setScenario (Some scenario_without_income) this1 = (Throw e, this2)
    ∧ hc_currentScenario this2 = Some scenario_without_income
    ∧ hc_calculations this2 = CalculationsOf r1
    ∧ (∀ ex categories,
         expenses scenario_without_income = Some ex →
         ramitCategories ex = Some categories →
         ∃ v, calculatePersonView "person1" this2 = Ok (Some v)
              ∧ pv_income v = EntryPerson (res_person1 r1)
              ∧ eb_fixedCosts (pv_expenses v)
                = calculateCategoryTotal (fixedCosts categories)
                    (Some "person1"))
    ∧ (expenses scenario_without_income = None →
       ∃ msg, calculatePersonView "person1" this2 = Throw (TypeError msg)).
Proof.
  do 4 eexists. split; [vm_compute; reflexivity|].
  split; [vm_compute; reflexivity|].
  eapply (setScenario_failure_leaves_stale_calculations
            (new_HouseholdCalculator new_TaxCalculator) _ _
            (createBaselineScenario "2025-01-01T00:00:00.000Z")
            scenario_without_income);
    vm_compute; reflexivity.
Defined.

(** X21: [calculatePersonView] does not check that its argument names a
    person.  For the keys "household", "expenses", "ramitBreakdown" and
    "summary" of a result it returns a view, not [null]; these entries
    have no [monthlyNet], so the surplus of the view is [NaN] and its four
    percentages are 0. *)
Theorem calculatePersonView_summary_key (this this' : HouseholdCalculator)
    (scenario : Scenario) (r : ScenarioResult) (key : string) :
  setScenario (Some scenario) this = (Ok (Some r), this') →
  key ∈ ["household"; "expenses"; "ramitBreakdown"; "summary"] →
  ∃ v,
    calculatePersonView key this' = Ok (Some v)
    ∧ pv_surplus v = NaN
    ∧ pcat_percentage (prb_fixedCosts (pv_ramitBreakdown v)) = 0%num
    ∧ pcat_percentage (prb_investments (pv_ramitBreakdown v)) = 0%num
    ∧ pcat_percentage (prb_savings (pv_ramitBreakdown v)) = 0%num
    ∧ pcat_percentage (prb_guiltFreeSpending (pv_ramitBreakdown v)) = 0%num.
Proof.
  intros Hset Hkey.
  unfold setScenario in Hset. cbn [hc_taxCalc hc_currentScenario] in Hset.
  destruct (calculateScenario (hc_taxCalc this) (Some scenario))
    as [[r'|]|] eqn:Hr; try discriminate.
  injection Hset as -> <-.
  destruct (calculateScenario_inv _ scenario r Hr)
    as (inc & ex & categories & _ & Hex & Hcats & _).
  unfold calculatePersonView. cbn [hc_calculations hc_currentScenario].
  rewrite !elem_of_cons, elem_of_nil in Hkey.
  destruct Hkey as [->|[->|[->|[->|[]]]]];
    cbn [result_entry String.eqb Ascii.eqb Bool.eqb prop_of mbind js_bind];
    rewrite Hex; cbn [prop_of mbind js_bind]; rewrite Hcats;
    cbn [prop_of mbind js_bind]; eexists; (split; [reflexivity|]);
    by cbn.
Qed.

Lemma calculatePersonView_summary_key_witness :
  ∃ r this',
    setScenario (Some (createBaselineScenario "2025-01-01T00:00:00.000Z"))
      (new_HouseholdCalculator new_TaxCalculator) = (Ok (Some r), this')
    ∧ ∃ v,
        calculatePersonView "household" this' = Ok (Some v)
        ∧ pv_surplus v = NaN
        ∧ pcat_percentage (prb_fixedCosts (pv_ramitBreakdown v)) = 0%num
        ∧ pcat_percentage (prb_investments (pv_ramitBreakdown v)) = 0%num
        ∧ pcat_percentage (prb_savings (pv_ramitBreakdown v)) = 0%num
        ∧ pcat_percentage (prb_guiltFreeSpending (pv_ramitBreakdown v))
          = 0%num.
Proof.
  do 2 eexists. split; [vm_compute; reflexivity|].
  eapply (calculatePersonView_summary_key
            (new_HouseholdCalculator new_TaxCalculator) _
            (createBaselineScenario "2025-01-01T00:00:00.000Z"));
    [vm_compute; reflexivity|set_solver].
Defined.

End HouseholdBudget.

(** ** Scenario store, continued *)

Section ScenarioStoreCalls.

(** The outcome of [deleteScenario] on a stored scenario other than the
    baseline. *)
Lemma deleteScenario_stored (scenarioName : string) (this : ScenarioManager)
    (scenario : Scenario) :
  scenarioName ≠ "baseline" →
  scenarios this !! scenarioName = Some scenario →
  deleteScenario scenarioName this
  = if setItem_throws (storage this)
    then (Ok false,
          {| storage := storage this;
             currentScenario := currentScenario this;
             scenarios := delete scenarioName (scenarios this);
             triggered := triggered this |})
    else
      let this' :=
        {| storage := {| allData := delete scenarioName (allData (storage this));
                         setItem_throws := false |};
           currentScenario := currentScenario this;
           scenarios := delete scenarioName (scenarios this);
           triggered := triggered this |} in
      (Ok true,
       triggerCallbacks (onScenarioDelete scenarioName)
         (if bool_decide (currentScenario this = Some scenarioName)
          then (setCurrentScenario "baseline" this').2 else this')).
Proof.
  intros Hname Hstored. unfold deleteScenario.
  rewrite (proj2 (String.eqb_neq _ _) Hname), Hstored.
  unfold storage_deleteScenario.
  by destruct (setItem_throws (storage this)) eqn:Hwrite.
Qed.

(** The outcome of [deleteScenario] when nothing is deleted. *)
Lemma deleteScenario_refused (scenarioName : string) (this : ScenarioManager) :
  scenarioName = "baseline" ∨ scenarios this !! scenarioName = None →
  ∃ e, deleteScenario scenarioName this = (Throw e, this).
Proof.
  unfold deleteScenario. intros [->|Habsent]; [by eexists|].
  destruct (String.eqb scenarioName "baseline"); [by eexists|].
  rewrite Habsent. by eexists.
Qed.

(** X22: when the write to storage fails, [deleteScenario] returns [false]
    after it has already removed the scenario from memory: storage still
    holds the scenario, no callback is triggered, and the current scenario,
    if it was the deleted one, is left naming a scenario that
    [getCurrentScenario] no longer finds. *)
Theorem deleteScenario_storage_failure (scenarioName : string)
    (this : ScenarioManager) (scenario : Scenario) :
  scenarioName ≠ "baseline" →
  scenarios this !! scenarioName = Some scenario →
  setItem_throws (storage this) = true →
  let this' := (deleteScenario scenarioName this).2 in
  (deleteScenario scenarioName this).1 = Ok false
  ∧ scenarios this' !! scenarioName = None
  ∧ storage this' = storage this
  ∧ currentScenario this' = currentScenario this
  ∧ triggered this' = triggered this
  ∧ (currentScenario this = Some scenarioName →
     getCurrentScenario this' = None).
Proof.
  intros Hname Hstored Hwrite. cbv zeta.
  rewrite (deleteScenario_stored _ _ _ Hname Hstored), Hwrite.
  cbn [fst snd scenarios storage currentScenario triggered].
  split; [done|]. split; [apply lookup_delete_eq|]. do 3 (split; [done|]).
  intros Hcur. unfold getCurrentScenario. cbn [scenarios currentScenario].
  rewrite Hcur. apply lookup_delete_eq.
Qed.

Lemma deleteScenario_storage_failure_witness :
  let this := manager_with_plan true in
  let this' := (deleteScenario "plan" this).2 in
  (deleteScenario "plan" this).1 = Ok false
  ∧ scenarios this' !! "plan" = None
  ∧ storage this' = storage this
  ∧ currentScenario this' = currentScenario this
  ∧ triggered this' = triggered this
  ∧ (currentScenario this = Some "plan" → getCurrentScenario this' = None).
Proof.
  cbv zeta.
  apply (deleteScenario_storage_failure "plan" (manager_with_plan true)
           scenario_without_person1); [done|reflexivity|reflexivity].
Defined.

(** X23: [deleteScenario] touches one name only: whatever its outcome,
    every other scenario is unchanged in memory and in storage. *)
Theorem deleteScenario_others_untouched (scenarioName other : string)
    (this : ScenarioManager) :
  other ≠ scenarioName →
  let this' := (deleteScenario scenarioName this).2 in
  scenarios this' !! other = scenarios this !! other
  ∧ allData (storage this') !! other = allData (storage this) !! other.
Proof.
  intros Hother. cbv zeta.
  destruct (decide (scenarioName = "baseline")) as [Hname|Hname].
  { destruct (deleteScenario_refused scenarioName this (or_introl Hname))
      as [e ->]. done. }
  destruct (scenarios this !! scenarioName) as [scenario|] eqn:Hstored.
  2: { destruct (deleteScenario_refused scenarioName this (or_intror Hstored))
         as [e ->]. done. }
  rewrite (deleteScenario_stored _ _ _ Hname Hstored).
  destruct (setItem_throws (storage this)).
  { cbn [snd scenarios storage]. by rewrite lookup_delete_ne. }
  cbv zeta. cbn [snd]. unfold triggerCallbacks, setCurrentScenario.
  cbn [scenarios storage currentScenario triggered].
  destruct (bool_decide (currentScenario this = Some scenarioName));
    [destruct (delete scenarioName (scenarios this) !! "baseline")|];
    cbn [snd scenarios storage allData triggerCallbacks];
    by rewrite !lookup_delete_ne.
Qed.

Lemma deleteScenario_others_untouched_witness :
  let this := manager_with_plan false in
  let this' := (deleteScenario "plan" this).2 in
  scenarios this' !! "baseline" = scenarios this !! "baseline"
  ∧ allData (storage this') !! "baseline"
    = allData (storage this) !! "baseline".
Proof.
  cbv zeta.
  apply (deleteScenario_others_untouched "plan" "baseline"
           (manager_with_plan false)).
  done.
Defined.

(** The state that the calls keep: storage is writable, the baseline is
    stored and the current scenario names a stored scenario. *)
Lemma after_call_valid (this : ScenarioManager) (call : StoreCall) :
  setItem_throws (storage this) = false →
  is_Some (scenarios this !! "baseline") →
  (∃ c, currentScenario this = Some c ∧ is_Some (scenarios this !! c)) →
  setItem_throws (storage (after_call this call)) = false
  ∧ scenarios (after_call this call) !! "baseline"
    = scenarios this !! "baseline"
  ∧ ∃ c, currentScenario (after_call this call) = Some c
         ∧ is_Some (scenarios (after_call this call) !! c).
Proof.
  intros Hwrite Hbase (c & Hcur & Hc).
  destruct call as [scenarioName|scenarioName]; cbn [after_call].
  - destruct (decide (scenarioName = "baseline")) as [Hname|Hname].
    { destruct (deleteScenario_refused scenarioName this (or_introl Hname))
        as [e ->]. cbn [snd]. eauto. }
    destruct (scenarios this !! scenarioName) as [scenario|] eqn:Hstored.
    2: { destruct (deleteScenario_refused scenarioName this
                     (or_intror Hstored)) as [e ->]. cbn [snd]. eauto. }
    rewrite (deleteScenario_stored _ _ _ Hname Hstored), Hwrite.
    cbv zeta. cbn [snd]. unfold triggerCallbacks, setCurrentScenario.
    cbn [scenarios storage currentScenario triggered].
    rewrite (lookup_delete_ne (scenarios this) scenarioName "baseline")
      by done.
    destruct Hbase as [baseline Hbase]. rewrite Hbase.
    destruct (bool_decide (currentScenario this = Some scenarioName))
      eqn:Hdel;
      cbn [snd scenarios storage currentScenario setItem_throws
           triggerCallbacks].
    + rewrite lookup_delete_ne by done. rewrite Hbase.
      do 2 (split; [done|]). exists "baseline".
      rewrite lookup_delete_ne by done. rewrite Hbase. eauto.
    + apply bool_decide_eq_false in Hdel.
      rewrite lookup_delete_ne by done. rewrite Hbase.
      do 2 (split; [done|]). exists c. split; [done|].
      rewrite lookup_delete_ne by congruence. done.
  - unfold setCurrentScenario.
    destruct (scenarios this !! scenarioName) as [scenario|] eqn:Hstored;
      cbn [snd triggerCallbacks scenarios storage currentScenario].
    + do 2 (split; [done|]). exists scenarioName. by rewrite Hstored.
    + eauto.
Qed.



(** X25: callbacks of [deleteScenario].  Nothing is triggered unless the
    call returns [true]; when it does, the delete notification comes last,
    preceded by a change notification for "baseline" exactly when the
    deleted scenario was the current one and a baseline is stored. *)
Theorem deleteScenario_callbacks (scenarioName : string)
    (this : ScenarioManager) :
  let outcome := (deleteScenario scenarioName this).1 in
  let this' := (deleteScenario scenarioName this).2 in
  (outcome ≠ Ok true → triggered this' = triggered this)
  ∧ (outcome = Ok true →
     triggered this'
     = (triggered this
        ++ (if bool_decide (currentScenario this = Some scenarioName)
               && bool_decide (is_Some (scenarios this !! "baseline"))
            then [onScenarioChange "baseline"] else [])
        ++ [onScenarioDelete scenarioName])%list).
Proof.
  cbv zeta.
  destruct (decide (scenarioName = "baseline")) as [Hname|Hname].
  { destruct (deleteScenario_refused scenarioName this (or_introl Hname))
      as [e ->]. done. }
  destruct (scenarios this !! scenarioName) as [scenario|] eqn:Hstored.
  2: { destruct (deleteScenario_refused scenarioName this (or_intror Hstored))
         as [e ->]. done. }
  rewrite (deleteScenario_stored _ _ _ Hname Hstored).
  destruct (setItem_throws (storage this)); [done|].
  cbv zeta. cbn [fst snd]. split; [done|]. intros _.
  unfold triggerCallbacks, setCurrentScenario.
  cbn [scenarios storage currentScenario triggered].
  rewrite (lookup_delete_ne (scenarios this) scenarioName "baseline") by done.
  destruct (bool_decide (currentScenario this = Some scenarioName));
    cbn [andb]; [|done].
  destruct (scenarios this !! "baseline") as [baseline|] eqn:Hbase.
  - rewrite bool_decide_eq_true_2 by eauto.
    cbn [snd triggered triggerCallbacks].
    by rewrite <- app_assoc.
  - rewrite bool_decide_eq_false_2 by (by intros [? ?]). done.
Qed.

End ScenarioStoreCalls.

(** ** Slopes: what one more unit of income costs *)

Section Slopes.

Local Open Scope Qc_scope.

(** Over contiguous brackets with rates up to [rmax], the bracket sum grows
    by at most [rmax] per unit of income. *)
Lemma bracket_fold_slope (rmax : Qc) (bs : list Bracket) :
  0 ≤ rmax →
  ∀ (lo x y ax ay : Qc),
    x ≤ y → lo ≤ x →
    contiguous_from lo bs = true → rates_within rmax bs = true →
    ∃ tx ty, foldl (bracket_step (Fin x)) (Fin ax) bs = Fin tx
             ∧ foldl (bracket_step (Fin y)) (Fin ay) bs = Fin ty
             ∧ ty - tx ≤ ay - ax + rmax * (y - x).
Proof.
  intros Hrmax. induction bs as [|b bs IH]; intros lo x y ax ay Hxy Hlo Hcont Hrates.
  - exists ax, ay. cbn. do 2 (split; [done|]). qc_arith.
  - destruct b as [[| |m] hi [| |r]]; try discriminate.
    cbn [contiguous_from b_min b_max] in Hcont.
    cbn [rates_within forallb b_rate] in Hrates.
    apply andb_prop in Hrates as [Hr Hrates]. fold (rates_within rmax bs) in Hrates.
    destruct hi as [|[]|hi]; try discriminate.
    + destruct bs as [|]; [|by rewrite andb_false_r in Hcont].
      cbn. unfold bracket_step. cbn.
      destruct (Qc_ltb m x) eqn:Hx; destruct (Qc_ltb m y) eqn:Hy;
        do 2 eexists; (split; [done|]); (split; [done|]); qc_arith.
    + apply andb_prop in Hcont as [Hcont Hrest].
      cbn [foldl]. unfold bracket_step at 2 4. cbn.
      destruct (Qc_ltb m x) eqn:Hx; destruct (Qc_ltb hi x) eqn:Hhx;
        destruct (Qc_ltb m y) eqn:Hy; destruct (Qc_ltb hi y) eqn:Hhy; cbn;
        match goal with
        | |- context [foldl (bracket_step (Fin x)) (Fin ?a) bs] =>
            match goal with
            | |- context [foldl (bracket_step (Fin y)) (Fin ?b) bs] =>
                destruct (bracket_fold_upper rmax bs Hrmax hi x a Hrest Hrates)
                  as (tx & Htx & Hxle & Hxbelow & Hxabove);
                destruct (bracket_fold_upper rmax bs Hrmax hi y b Hrest Hrates)
                  as (ty & Hty & Hyle & Hybelow & Hyabove);
                pose proof (λ H1 H2, IH hi x y a b H1 H2 Hrest Hrates) as IH'
            end
        end;
        exists tx, ty; (split; [done|]); (split; [done|]);
        qc_hyps;
        try (assert (x ≤ hi) as Hxhi by qc_arith; specialize (Hxbelow Hxhi));
        try (assert (hi ≤ x) as Hhix by qc_arith; specialize (Hxabove Hhix);
             destruct (IH' Hxy Hhix) as (tx' & ty' & Htx' & Hty' & Hslope);
             rewrite Htx in Htx'; rewrite Hty in Hty';
             injection Htx' as <-; injection Hty' as <-);
        try (assert (y ≤ hi) as Hyhi by qc_arith; specialize (Hybelow Hyhi));
        try (assert (hi ≤ y) as Hhiy by qc_arith; specialize (Hyabove Hhiy));
        clear IH IH' Htx Hty;
        qc_arith.
Qed.

(** Rounding to cents adds at most one cent to a difference. *)
Lemma round_cents_slope (a a' : Qc) :
  ∃ c c', round_cents (Fin a) = Fin c ∧ round_cents (Fin a') = Fin c'
          ∧ c' - c ≤ a' - a + Q2Qc 0.01.
Proof.
  destruct (round_cents_bounds a) as (c & Hc & Hlo & _).
  destruct (round_cents_bounds a') as (c' & Hc' & _ & Hhi & _).
  exists c, c'. do 2 (split; [done|]). qc_arith.
Qed.

Lemma calculateFederalTax_slope (status : string) (x y : Qc) :
  is_Some (federalBrackets new_TaxCalculator !! status) →
  0 ≤ x → x ≤ y →
  ∃ fx fy,
    calculateFederalTax new_TaxCalculator (Fin x) (Some status) = Ok (Fin fx)
    ∧ calculateFederalTax new_TaxCalculator (Fin y) (Some status) = Ok (Fin fy)
    ∧ fy - fx ≤ Q2Qc 0.37 * (y - x) + Q2Qc 0.01.
Proof.
  intros [brackets Hb] Hx Hxy.
  rewrite !(calculateFederalTax_eq _ _ _ _ Hb). change 0%num with (Fin 0).
  destruct (federalBrackets_within _ _ Hb) as (Hcont & Hrates & _).
  destruct (bracket_fold_slope (Q2Qc 0.37) brackets ltac:(by vm_compute)
              0 x y 0 0 Hxy Hx Hcont Hrates) as (tx & ty & -> & -> & Hslope).
  destruct (round_cents_slope tx ty) as (fx & fy & -> & -> & Hround).
  exists fx, fy. do 2 (split; [done|]). qc_arith.
Qed.

Lemma calculateStateTax_slope (state : option string) (x y : Qc) :
  0 ≤ x → x ≤ y →
  ∃ sx sy,
    calculateStateTax new_TaxCalculator (Fin x) state = Fin sx
    ∧ calculateStateTax new_TaxCalculator (Fin y) state = Fin sy
    ∧ sy - sx ≤ Q2Qc 0.123 * (y - x) + Q2Qc 0.01.
Proof.
  intros Hx Hxy. unfold calculateStateTax.
  destruct (stateTaxRates new_TaxCalculator !! key_of state)
    as [rule|] eqn:Hrule.
  - apply stateTaxRates_within in Hrule.
    destruct rule as [|[| |r]|brackets]; try discriminate.
    + exists 0, 0. do 2 (split; [done|]). qc_arith.
    + cbn in Hrule. do 2 eexists. do 2 (split; [done|]). qc_arith.
    + cbn [rule_within] in Hrule.
      apply andb_prop in Hrule as [Hrule _].
      apply andb_prop in Hrule as [Hrule Hrates].
      apply andb_prop in Hrule as [_ Hcont].
      fold (bracket_step (Fin x)). fold (bracket_step (Fin y)).
      change 0%num with (Fin 0).
      destruct (bracket_fold_slope (Q2Qc 0.123) brackets ltac:(by vm_compute)
                  0 x y 0 0 Hxy Hx Hcont Hrates)
        as (tx & ty & -> & -> & Hslope).
      destruct (round_cents_slope tx ty) as (sx & sy & -> & -> & Hround).
      exists sx, sy. do 2 (split; [done|]). qc_arith.
  - do 2 eexists. do 2 (split; [done|]). qc_arith.
Qed.

Lemma calculateFICA_total_slope (w w' : Qc) :
  w ≤ w' →
  ∃ k k',
    total (calculateFICA new_TaxCalculator (Fin w)) = Fin k
    ∧ total (calculateFICA new_TaxCalculator (Fin w')) = Fin k'
    ∧ k' - k ≤ Q2Qc 0.0765 * (w' - w) + Q2Qc 0.01.
Proof.
  intros Hww.
  destruct (calculateFICA_amounts w)
    as (a & b & c & _ & _ & _ & -> & Ha1 & Ha2 & -> & Hc1 & Hc2).
  destruct (calculateFICA_amounts w')
    as (a' & b' & c' & _ & _ & _ & -> & Ha1' & Ha2' & -> & Hc1' & Hc2').
  destruct (round_cents_slope (a + w * Q2Qc 0.0145 + c)
              (a' + w' * Q2Qc 0.0145 + c')) as (k & k' & -> & -> & Hround).
  exists k, k'. do 2 (split; [done|]).
  assert (Hsum : (a' + w' * Q2Qc 0.0145 + c') - (a + w * Q2Qc 0.0145 + c)
                 ≤ Q2Qc 0.0765 * (w' - w)).
  { clear Hround.
    destruct (Qclt_le_dec w (Q2Qc 176100)) as [Hb|Hb];
      [apply Qclt_le_weak in Hb; rewrite (Ha1 Hb)|rewrite (Ha2 Hb)];
      (destruct (Qclt_le_dec w (Q2Qc 200000)) as [Hc|Hc];
       [apply Qclt_le_weak in Hc; rewrite (Hc1 Hc)|rewrite (Hc2 Hc)]);
      (destruct (Qclt_le_dec w' (Q2Qc 176100)) as [Hb'|Hb'];
       [apply Qclt_le_weak in Hb'; rewrite (Ha1' Hb')|rewrite (Ha2' Hb')]);
      (destruct (Qclt_le_dec w' (Q2Qc 200000)) as [Hc'|Hc'];
       [apply Qclt_le_weak in Hc'; rewrite (Hc1' Hc')|rewrite (Hc2' Hc')]);
      clear Ha1 Ha2 Hc1 Hc2 Ha1' Ha2' Hc1' Hc2'; qc_arith. }
  qc_arith.
Qed.

(** X26: a raise never costs more than it brings.  For a filing status of
    the table, any state and any finite deductions, raising the gross
    income from [g] to [g'] raises the net income of [calculateAllTaxes] by
    at least 43.05% of the raise, up to three cents of rounding: federal
    tax, state tax and FICA together take at most 56.95% of each additional
    unit, and there is no cliff at a bracket boundary, at the wage base or
    at the standard deduction. *)
Theorem calculateAllTaxes_raise (g g' p : Qc) (status : string)
    (state : option string) :
  is_Some (federalBrackets new_TaxCalculator !! status) →
  g ≤ g' →
  ∃ r r' n n',
    calculateAllTaxes new_TaxCalculator (Fin g) (Fin p) (Some status) state
    = Ok r
    ∧ calculateAllTaxes new_TaxCalculator (Fin g') (Fin p) (Some status) state
      = Ok r'
    ∧ netIncome r = Fin n ∧ netIncome r' = Fin n'
    ∧ n + Q2Qc 0.4305 * (g' - g) ≤ n' + Q2Qc 0.03.
Proof.
  intros Hstatus Hgg.
  destruct (calculateAllTaxes_figures g p status state Hstatus)
    as (d & t & f & s & k & m & Hd & Ht & Hf & Hs & Hk & ->).
  destruct (calculateAllTaxes_figures g' p status state Hstatus)
    as (d' & t' & f' & s' & k' & m' & Hd' & Ht' & Hf' & Hs' & Hk' & ->).
  rewrite Hd in Hd'. injection Hd' as <-.
  assert (Htt : 0 ≤ t ∧ t ≤ t' ∧ t' - t ≤ g' - g).
  { revert Ht Ht'. unfold Num.max, lit. cbn.
    destruct (Qc_ltb (Q2Qc 0) (g - p - d)) eqn:Hlt;
      destruct (Qc_ltb (Q2Qc 0) (g' - p - d)) eqn:Hlt';
      intros Ht Ht'; injection Ht as Ht; injection Ht' as Ht'; subst t t';
      (split; [|split]); qc_arith. }
  destruct Htt as (Ht0 & Htt & Hdt).
  destruct (calculateFederalTax_slope status t t' Hstatus Ht0 Htt)
    as (fx & fy & Hfx & Hfy & Hfslope).
  rewrite Hf in Hfx. rewrite Hf' in Hfy.
  injection Hfx as <-. injection Hfy as <-.
  destruct (calculateStateTax_slope state t t' Ht0 Htt)
    as (sx & sy & Hsx & Hsy & Hsslope).
  rewrite Hs in Hsx. rewrite Hs' in Hsy.
  injection Hsx as <-. injection Hsy as <-.
  destruct (calculateFICA_total_slope (g - p) (g' - p) ltac:(qc_arith))
    as (kx & ky & Hkx & Hky & Hkslope).
  rewrite Hk in Hkx. rewrite Hk' in Hky.
  injection Hkx as <-. injection Hky as <-.
  do 4 eexists. do 2 (split; [reflexivity|]). cbn [netIncome].
  do 2 (split; [reflexivity|]).
  clear Hd Ht Ht' Hf Hf' Hs Hs' Hk Hk'. qc_arith.
Qed.

Lemma calculateAllTaxes_raise_witness :
  ∃ r r' n n',
    calculateAllTaxes new_TaxCalculator (lit 100000) (lit 5000)
      (Some "single") (Some "CA") = Ok r
    ∧ calculateAllTaxes new_TaxCalculator (lit 104000) (lit 5000)
        (Some "single") (Some "CA") = Ok r'
    ∧ netIncome r = Fin n ∧ netIncome r' = Fin n'
    ∧ n + Q2Qc 0.4305 * (Q2Qc 104000 - Q2Qc 100000) ≤ n' + Q2Qc 0.03.
Proof.
  apply (calculateAllTaxes_raise (Q2Qc 100000) (Q2Qc 104000) (Q2Qc 5000)
           "single" (Some "CA")).
  - vm_compute. by eexists.
  - by vm_compute.
Defined.

End Slopes.
